(** * pdf_checker_project: a model of the code and its properties

    The development follows the four source files of the repository:

    - [pdf_checker_app/management/commands/update_pattern_header.py]
      (module [Command] below, on top of [Py], [Posix] and [Httpx]);
    - [manage.py] (module [Manage]);
    - [pdf_checker_app/admin.py] (module [Admin]);
    - [pdf_checker_app/tests/test_pdf_report.py] (module [Report]).

    Python code runs against a world (settings, network, file system,
    standard output); it is embedded in a state-and-exception monad [M]
    over an explicit [World].  The library calls the code makes
    ([httpx.get], [Response.raise_for_status], [Path.mkdir],
    [Path.write_text], [os.environ.setdefault], [admin.register]) are
    modelled after the documented behaviour of those libraries. *)

From Stdlib Require Import ZArith NArith Ascii String List Bool Lia.
From stdpp Require Import base option list gmap strings fin_maps pretty.

Local Open Scope N_scope.

(* ===================================================================== *)
(** * Python values *)
(* ===================================================================== *)

Module Py.

(** A Python [str] is a sequence of Unicode code points. *)
Abbreviation pystr := (list N).

(** [bytes]: a sequence of octets. *)
Abbreviation bytes := (list N).

(** An ASCII literal of the source, as a [str]. *)
Definition lit (s : string) : pystr :=
  map N_of_ascii (list_ascii_of_string s).
Arguments lit : simpl never.

(** The objects that reach the command through [options] and
    [settings]. *)
Inductive pyobj : Type :=
| PyNone
| PyBool (b : bool)
| PyInt (z : Z)
| PyStr (s : pystr).

(** Truth value testing: [None], [False], [0] and [''] are false. *)
Definition truthy (o : pyobj) : bool :=
  match o with
  | PyNone => false
  | PyBool b => b
  | PyInt z => negb (z =? 0)%Z
  | PyStr s => match s with [] => false | _ :: _ => true end
  end.

(** [isinstance(o, str)]. *)
Definition isinstance_str (o : pyobj) : bool :=
  match o with PyStr _ => true | _ => false end.

(** [a or b]: [a] when it is true, else [b]. *)
Definition py_or (a b : pyobj) : pyobj := if truthy a then a else b.

(** [str(o)], as an f-string interpolates it. *)
Definition py_format (o : pyobj) : pystr :=
  match o with
  | PyNone => lit "None"
  | PyBool true => lit "True"
  | PyBool false => lit "False"
  | PyInt z => lit (pretty z)
  | PyStr s => s
  end.

(** [d.get(k)] on a [dict[str, object]]: [None] when the key is absent. *)
Definition dict_get (d : gmap string pyobj) (k : string) : pyobj :=
  default PyNone (d !! k).

(** [getattr(obj, name, dflt)] on a namespace of attributes. *)
Definition getattr (obj : gmap string pyobj) (name : string) (dflt : pyobj) : pyobj :=
  default dflt (obj !! name).

(** ** [str.encode('utf-8')]

    One to four octets per code point; the surrogates U+D800..U+DFFF
    have no encoding ([UnicodeEncodeError]). *)
Definition utf8_code_point (c : N) : option bytes :=
  if c <? 0x80 then Some [c]
  else if c <? 0x800 then
    Some [N.lor 0xC0 (N.shiftr c 6); N.lor 0x80 (N.land c 0x3F)]
  else if c <? 0x10000 then
    if (0xD800 <=? c) && (c <=? 0xDFFF) then None
    else Some [N.lor 0xE0 (N.shiftr c 12);
               N.lor 0x80 (N.land (N.shiftr c 6) 0x3F);
               N.lor 0x80 (N.land c 0x3F)]
  else if c <? 0x110000 then
    Some [N.lor 0xF0 (N.shiftr c 18);
          N.lor 0x80 (N.land (N.shiftr c 12) 0x3F);
          N.lor 0x80 (N.land (N.shiftr c 6) 0x3F);
          N.lor 0x80 (N.land c 0x3F)]
  else None.

Fixpoint encode_utf8 (s : pystr) : option bytes :=
  match s with
  | [] => Some []
  | c :: s' =>
      match utf8_code_point c, encode_utf8 s' with
      | Some b, Some bs => Some (b ++ bs)
      | _, _ => None
      end
  end.

(** ** Exceptions *)

(** The exception classes the command can meet.  [RequestError] stands
    for httpx's transport-level failures (timeouts, connection and
    protocol errors, an unsupported or missing protocol, too many
    redirects); with [HTTPStatusError] it makes up [httpx.HTTPError].
    [InvalidURL] is raised by httpx but is not an [HTTPError].  The next
    four are the subclasses of [OSError] that the structure of a path
    gives rise to. *)
Inductive exc_class : Type :=
| HTTPStatusError
| RequestError
| InvalidURL
| TypeError
| FileNotFoundError
| FileExistsError
| NotADirectoryError
| IsADirectoryError
| UnicodeEncodeError.

#[global] Instance exc_class_eq_dec : EqDecision exc_class :=
  ltac:(solve_decision).

Record exn : Type := Exn { exn_class : exc_class; exn_msg : pystr }.

(** [isinstance(e, httpx.HTTPError)]. *)
Definition is_HTTPError (e : exn) : bool :=
  match exn_class e with
  | HTTPStatusError | RequestError => true
  | _ => false
  end.

(** [isinstance(e, FileNotFoundError)]. *)
Definition is_FileNotFoundError (e : exn) : bool :=
  match exn_class e with FileNotFoundError => true | _ => false end.

(** [isinstance(e, OSError)], for the classes above: the four errors of
    a path's structure. *)
Definition is_OSError (e : exn) : bool :=
  match exn_class e with
  | FileNotFoundError | FileExistsError
  | NotADirectoryError | IsADirectoryError => true
  | _ => false
  end.

(** ** The world a command runs in *)

(** A path is the list of its components, innermost first: the parent
    of a path is its tail and the root is the empty list. *)
Abbreviation path := (list pystr).

Inductive node : Type :=
| Dir
| File (data : bytes).

Record Response : Type := mkResponse { status_code : Z; text : pystr }.

(** What the network answers to one GET. *)
Inductive http_outcome : Type :=
| Responded (r : Response)
| Failed (e : exn).

Inductive style : Type := PLAIN | ERROR | WARNING | SUCCESS.

(** The observable actions, in the order they happen.  [EvGet url]
    records that [httpx.get] was called with the string [url]; httpx
    sends at most one request for it, and none when it refuses the URL
    itself. *)
Inductive event : Type :=
| EvGet (url : pystr)
| EvStdout (st : style) (line : pystr)
| EvMkdir (p : path)
| EvWrite (p : path) (data : bytes).

Record World : Type := mkWorld {
  settings : gmap string pyobj;   (* django.conf.settings *)
  module_file : path;             (* Path(__file__).resolve() *)
  net : pystr → http_outcome;     (* the remote side *)
  fs : gmap path node;            (* the file system *)
  trace : list event              (* what has been done so far *)
}.

Definition set_fs (f : gmap path node) (w : World) : World :=
  mkWorld (settings w) (module_file w) (net w) f (trace w).

Definition log (ev : event) (w : World) : World :=
  mkWorld (settings w) (module_file w) (net w) (fs w) (trace w ++ [ev]).

(** ** The monad: state and exceptions *)

Inductive result (A : Type) : Type :=
| Ok (a : A)
| Raise (e : exn).
Arguments Ok {A} a.
Arguments Raise {A} e.

Definition M (A : Type) : Type := World → result A * World.

Definition ret {A} (a : A) : M A := λ w, (Ok a, w).

Definition bind {A B} (m : M A) (k : A → M B) : M B :=
  λ w, match m w with
       | (Ok a, w') => k a w'
       | (Raise e, w') => (Raise e, w')
       end.

Definition raise {A} (e : exn) : M A := λ w, (Raise e, w).

Definition get_world : M World := λ w, (Ok w, w).

(** [try: body / except <handles> as e: handler e]. *)
Definition try_except {A} (body : M A) (handles : exn → bool) (handler : exn → M A) : M A :=
  λ w, match body w with
       | (Ok a, w') => (Ok a, w')
       | (Raise e, w') => if handles e then handler e w' else (Raise e, w')
       end.

#[global] Instance M_ret : MRet M := @ret.
#[global] Instance M_bind : MBind M := λ A B k m, bind m k.

(** [self.stdout.write(...)], with the style function applied to it. *)
Definition stdout_write (st : style) (line : pystr) : M unit :=
  λ w, (Ok (), log (EvStdout st line) w).

(** The counts the properties speak of. *)
Definition is_get (ev : event) : bool :=
  match ev with EvGet _ => true | _ => false end.
Definition is_write (ev : event) : bool :=
  match ev with EvWrite _ _ => true | _ => false end.
Definition is_stdout (ev : event) : bool :=
  match ev with EvStdout _ _ => true | _ => false end.

Definition count (f : event → bool) (t : list event) : nat :=
  length (List.filter f t).

End Py.

(* ===================================================================== *)
(** * The file system calls of [pathlib] and [os] *)
(* ===================================================================== *)

Module Posix.
Import Py.

(** The file system here has directories and regular files, no symbolic
    links, and is changed by nobody else during a call.  The calls fail
    for what the structure of a path forbids (a missing directory, a file
    where a directory should be, an entry that is there already, a
    directory where a file should be).  What the operating system may
    refuse beyond that, for permissions, a read-only or full file system
    or a quota, is outside this model: here every call the structure
    allows is granted. *)

(** [p.parent]; the root is its own parent. *)
Definition parent (p : path) : path := tail p.

(** [p / name]. *)
Definition joinpath (p : path) (name : pystr) : path := name :: p.

(** [str(p)] for an absolute path. *)
Definition path_str (p : path) : pystr :=
  match p with
  | [] => lit "/"
  | _ :: _ => concat (map (λ c, lit "/" ++ c) (rev p))
  end.

Definition os_error (c : exc_class) (p : path) : exn := Exn c (path_str p).

(** Path resolution, component by component from the root: the error
    that keeps [p] from being used as a directory, if there is one.
    A missing component gives ENOENT, a regular file on the way ENOTDIR. *)
Fixpoint dir_error (f : gmap path node) (p : path) : option exc_class :=
  match p with
  | [] => None
  | c :: q =>
      match dir_error f q with
      | Some err => Some err
      | None =>
          match f !! (c :: q) with
          | None => Some FileNotFoundError
          | Some (File _) => Some NotADirectoryError
          | Some Dir => None
          end
      end
  end.

(** [os.mkdir(p)]: the parent must resolve to a directory and [p] must
    not exist. *)
Definition os_mkdir (p : path) : M unit :=
  λ w, match p with
       | [] => (Raise (os_error FileExistsError p), w)
       | _ :: q =>
           match dir_error (fs w) q with
           | Some err => (Raise (os_error err p), w)
           | None =>
               match fs w !! p with
               | Some _ => (Raise (os_error FileExistsError p), w)
               | None => (Ok (), log (EvMkdir p) (set_fs (<[p := Dir]> (fs w)) w))
               end
           end
       end.

(** [p.is_dir()]: false on every resolution error. *)
Definition is_dir (p : path) : M bool :=
  λ w, (Ok (match dir_error (fs w) p with None => true | Some _ => false end), w).

(** [Path.mkdir(parents=False, exist_ok=exist_ok)]:
<<
    try:
        os.mkdir(self, mode)
    except FileNotFoundError:
        if not parents or self.parent == self:
            raise
        ...
    except OSError:
        if not exist_ok or not self.is_dir():
            raise
>> *)
Definition mkdir_flat (exist_ok : bool) (self : path) : M unit :=
  try_except (os_mkdir self) is_OSError
    (λ e, if is_FileNotFoundError e then raise e
          else d ← is_dir self;
               if negb exist_ok || negb d then raise e else mret ()).

(** [Path.mkdir(parents=True, exist_ok=exist_ok)]: on
    [FileNotFoundError] the parent is made first (with
    [parents=True, exist_ok=True]) and the directory itself is then made
    with [parents=False]. *)
Fixpoint mkdir_parents (exist_ok : bool) (self : path) {struct self} : M unit :=
  try_except (os_mkdir self) is_OSError
    (λ e, if is_FileNotFoundError e then
            match self with
            | [] => raise e
            | _ :: up => mkdir_parents true up;; mkdir_flat exist_ok self
            end
          else d ← is_dir self;
               if negb exist_ok || negb d then raise e else mret ()).

Definition Path_mkdir (parents exist_ok : bool) (self : path) : M unit :=
  if parents then mkdir_parents exist_ok self else mkdir_flat exist_ok self.

(** [open(p, 'w')]: the file is created, or truncated when it exists. *)
Definition open_w (p : path) : M unit :=
  λ w, match p with
       | [] => (Raise (os_error IsADirectoryError p), w)
       | _ :: q =>
           match dir_error (fs w) q with
           | Some err => (Raise (os_error err p), w)
           | None =>
               match fs w !! p with
               | Some Dir => (Raise (os_error IsADirectoryError p), w)
               | _ => (Ok (), set_fs (<[p := File []]> (fs w)) w)
               end
           end
       end.

(** Writing [data] through the descriptor [open_w] gave; once the file
    is open the write is granted. *)
Definition file_write (p : path) (data : bytes) : M unit :=
  λ w, (Ok (), log (EvWrite p data) (set_fs (<[p := File data]> (fs w)) w)).

(** [Path.write_text(data, encoding='utf-8')]: the file is opened for
    writing first, the text is encoded and written next (newlines are
    written as they are, the line separator being a line feed). *)
Definition Path_write_text (self : path) (data : pystr) : M unit :=
  open_w self;;
  match encode_utf8 data with
  | None => raise (Exn UnicodeEncodeError (lit "surrogates not allowed"))
  | Some b => file_write self b
  end.

End Posix.

(* ===================================================================== *)
(** * The two calls into httpx *)
(* ===================================================================== *)

Module Httpx.
Import Py.

(** [httpx.get(url, timeout=30.0)], redirects not followed.  A call
    with a string is recorded as [EvGet]; what comes back is the
    response, or the exception httpx raises for that URL, be it on the
    way or before anything is sent.  Anything but a [str] is refused with
    [TypeError]. *)
Definition get (url : pyobj) : M Response :=
  λ w, match url with
       | PyStr u =>
           match net w u with
           | Responded r => (Ok r, log (EvGet u) w)
           | Failed e => (Raise e, log (EvGet u) w)
           end
       | _ => (Raise (Exn TypeError (lit "Invalid type for url")), w)
       end.

(** [Response.is_success]: a 2xx status. *)
Definition is_success (r : Response) : bool :=
  (200 <=? status_code r)%Z && (status_code r <=? 299)%Z.

(** [Response.raise_for_status()]: [HTTPStatusError] unless the status is
    a success (the message is httpx's, shortened to the status). *)
Definition raise_for_status (r : Response) : M unit :=
  if is_success r then mret ()
  else raise (Exn HTTPStatusError (lit "HTTP status " ++ lit (pretty (status_code r)))).

End Httpx.

(* ===================================================================== *)
(** * management/commands/update_pattern_header.py *)
(* ===================================================================== *)

Module Command.
Import Py Posix.

Definition fetch_pattern_header (url : pyobj) : M pystr :=
  response ← Httpx.get url;
  Httpx.raise_for_status response;;
  mret (text response).

Definition resolve_target_path : M path :=
  w ← get_world;
  let app_dir := parent (parent (parent (module_file w))) in
  let target_path :=
    joinpath (joinpath (joinpath (joinpath app_dir
      (lit "pdf_checker_app_templates")) (lit "pdf_checker_app"))
      (lit "includes")) (lit "pattern_header.html") in
  mret target_path.

Definition save_pattern_header (content : pystr) (target_path : path) : M unit :=
  Path_mkdir true true (parent target_path);;
  Path_write_text target_path content.

(** Lines 67-70 of [handle]: the URL the command works with. *)
Definition handle_url (options : gmap string pyobj) (conf : gmap string pyobj) : pyobj :=
  let url_option := dict_get options "url" in
  let url_override := if isinstance_str url_option then url_option else PyStr [] in
  py_or url_override (getattr conf "PATTERN_HEADER_URL" (PyStr [])).

(** [Command.handle].  The two early [return]s inside the [try] and the
    dry-run test are the [None] and [ret ()] branches. *)
Definition handle (options : gmap string pyobj) : M unit :=
  w ← get_world;
  let url := handle_url options (settings w) in
  if negb (truthy url) then
    stdout_write ERROR (lit "PATTERN_HEADER_URL not set in settings and --url not provided")
  else
    let dry_run := truthy (dict_get options "dry_run") in
    target_path ← resolve_target_path;
    stdout_write PLAIN (lit "Fetching pattern header from: " ++ py_format url);;
    fetched ← try_except (content ← fetch_pattern_header url; mret (Some content))
                 is_HTTPError
                 (λ exc, stdout_write ERROR (lit "Failed to fetch: " ++ exn_msg exc);;
                         mret None);
    match fetched with
    | None => mret ()
    | Some content =>
        stdout_write PLAIN
          (lit "Fetched " ++ lit (pretty (length content)) ++ lit " characters");;
        if dry_run then
          stdout_write WARNING (lit "Dry run - not saving")
        else
          save_pattern_header content target_path;;
          stdout_write SUCCESS (lit "Saved to: " ++ path_str target_path)
    end.

End Command.

(* ===================================================================== *)
(** * manage.py *)
(* ===================================================================== *)

Module Manage.

(** [os.environ.setdefault(key, value)]: the variable is set only when
    it has no value yet (the empty string is a value). *)
Definition environ_setdefault (key value : string) (env : gmap string string)
  : gmap string string :=
  match env !! key with
  | Some _ => env
  | None => <[key := value]> env
  end.

(** How [main] ends: Django ran the command line and gave [r], or the
    import of Django failed and [ImportError] is raised. *)
Inductive outcome (R : Type) : Type :=
| Executed (r : R)
| ImportError (msg : string).
Arguments Executed {R} r.
Arguments ImportError {R} msg.

(** [main()].  [django] is what
    [from django.core.management import execute_from_command_line]
    finds: nothing, or Django's entry point, which is given [sys.argv]
    and is started in the process environment.  The result pairs the
    environment as [main] itself has made it, that is the one Django is
    started in, with the way [main] ends; what Django in its turn does to
    the environment is not part of it. *)
Definition main {R : Type}
    (django : option (list string → gmap string string → R))
    (argv : list string) (environ : gmap string string)
  : gmap string string * outcome R :=
  let environ := environ_setdefault "DJANGO_SETTINGS_MODULE" "config.settings" environ in
  match django with
  | None =>
      (environ,
       ImportError ("Couldn't import Django. Are you sure it's installed and "
                    ++ "available on your PYTHONPATH environment variable? Did you "
                    ++ "forget to activate a virtual environment?"))
  | Some execute_from_command_line =>
      (environ, Executed (execute_from_command_line argv environ))
  end.

End Manage.

(* ===================================================================== *)
(** * pdf_checker_app/admin.py *)
(* ===================================================================== *)

Module Admin.

(** One entry of [fieldsets]: a title and its options. *)
Record fieldset : Type := mkFieldset {
  fs_title : string;
  fs_fields : list string;
  fs_classes : list string
}.

(** A [ModelAdmin] subclass, by its name and class attributes. *)
Record ModelAdmin : Type := mkModelAdmin {
  class_name : string;
  list_display : list string;
  list_filter : list string;
  search_fields : list string;
  readonly_fields : list string;
  fieldsets : list fieldset
}.

Definition PDFDocumentAdmin : ModelAdmin := {|
  class_name := "PDFDocumentAdmin";
  list_display :=
    ["original_filename"; "user_email"; "file_size"; "processing_status"; "uploaded_at"];
  list_filter := ["processing_status"; "uploaded_at"];
  search_fields :=
    ["original_filename"; "user_email"; "user_first_name"; "user_last_name"; "file_checksum"];
  readonly_fields := ["file_checksum"; "file_size"; "uploaded_at"];
  fieldsets :=
    [ mkFieldset "File Information" ["original_filename"; "file_checksum"; "file_size"] [];
      mkFieldset "User Information"
        ["user_first_name"; "user_last_name"; "user_email"; "user_groups"] [];
      mkFieldset "Status" ["processing_status"; "processing_error"; "uploaded_at"] [] ]
|}.

Definition VeraPDFResultAdmin : ModelAdmin := {|
  class_name := "VeraPDFResultAdmin";
  list_display :=
    ["pdf_document"; "is_accessible"; "validation_profile"; "passed_checks";
     "failed_checks"; "analyzed_at"];
  list_filter := ["is_accessible"; "validation_profile"; "analyzed_at"];
  search_fields := ["pdf_document__original_filename"; "validation_profile"];
  readonly_fields := ["pdf_document"; "raw_json"; "analyzed_at"; "verapdf_version"];
  fieldsets :=
    [ mkFieldset "Document" ["pdf_document"] [];
      mkFieldset "Analysis Results"
        ["is_accessible"; "validation_profile"; "total_checks"; "passed_checks";
         "failed_checks"] [];
      mkFieldset "Metadata" ["analyzed_at"; "verapdf_version"] [];
      mkFieldset "Raw Data" ["raw_json"] ["collapse"] ]
|}.

Definition OpenRouterSummaryAdmin : ModelAdmin := {|
  class_name := "OpenRouterSummaryAdmin";
  list_display :=
    ["pdf_document"; "status"; "model"; "provider"; "total_tokens"; "cost"; "completed_at"];
  list_filter := ["status"; "provider"; "model"; "finish_reason"; "completed_at"];
  search_fields :=
    ["pdf_document__original_filename"; "openrouter_response_id"; "provider"; "model";
     "summary_text"];
  readonly_fields :=
    ["pdf_document"; "openrouter_response_id"; "raw_response_json"; "requested_at";
     "completed_at"; "openrouter_created_at"; "prompt_tokens"; "completion_tokens";
     "total_tokens"; "cost"];
  fieldsets :=
    [ mkFieldset "Document" ["pdf_document"] [];
      mkFieldset "Summary" ["summary_text"; "prompt"; "status"; "error"] [];
      mkFieldset "OpenRouter Metadata"
        ["openrouter_response_id"; "provider"; "model"; "finish_reason"] [];
      mkFieldset "Usage & Cost"
        ["prompt_tokens"; "completion_tokens"; "total_tokens"; "cost"] [];
      mkFieldset "Timestamps" ["requested_at"; "completed_at"; "openrouter_created_at"] [];
      mkFieldset "Raw Data" ["raw_response_json"] ["collapse"] ]
|}.

(** The admin site's registry: model name to its admin class. *)
Abbreviation registry := (gmap string ModelAdmin).

(** [@admin.register(model)] on a class: [AlreadyRegistered] ([None])
    when the model has an admin class already. *)
Definition register (model : string) (admin_class : ModelAdmin) (site : registry)
  : option registry :=
  match site !! model with
  | Some _ => None
  | None => Some (<[model := admin_class]> site)
  end.

(** Importing [admin.py]: its three decorated classes, top to bottom. *)
Definition admin_py (site : registry) : option registry :=
  site ← register "PDFDocument" PDFDocumentAdmin site;
  site ← register "VeraPDFResult" VeraPDFResultAdmin site;
  register "OpenRouterSummary" OpenRouterSummaryAdmin site.

End Admin.

(* ===================================================================== *)
(** * pdf_checker_app/tests/test_pdf_report.py and the view it exercises *)
(* ===================================================================== *)

Module Report.
Local Open Scope string_scope.

(** The fields of [PDFDocument] the test case sets.  A UUID is kept in
    its canonical text, the form it has in a URL. *)
Record PDFDocument : Type := mkPDFDocument {
  id : string;
  original_filename : string;
  file_checksum : string;
  file_size : Z;
  user_first_name : string;
  user_last_name : string;
  user_email : string;
  user_groups : list string;
  processing_status : string
}.

Record HttpResponse : Type := mkHttpResponse { status : Z; content : string }.

(** [assertContains]: the text occurs in the response body. *)
Definition contains (needle hay : string) : Prop :=
  ∃ before after, hay = before ++ needle ++ after.

Definition is_hex_lower (a : ascii) : bool :=
  let n := N_of_ascii a in
  ((48 <=? n) && (n <=? 57) || (97 <=? n) && (n <=? 102))%N.

(** [n] lower-case hexadecimal digits at the head of [s]; what follows
    them. *)
Fixpoint hex_run (n : nat) (s : string) : option string :=
  match n with
  | O => Some s
  | S n' =>
      match s with
      | String a s' => if is_hex_lower a then hex_run n' s' else None
      | EmptyString => None
      end
  end.

Definition dash (s : string) : option string :=
  match s with
  | String "-"%char s' => Some s'
  | _ => None
  end.

(** Modelled from the spec: the URL configuration is not among the
    sources; the report view is "keyed by a UUID", so its path segment
    goes through Django's [uuid] path converter, which accepts exactly
    [[0-9a-f]{8}-[0-9a-f]{4}-[0-9a-f]{4}-[0-9a-f]{4}-[0-9a-f]{12}]. *)
Definition is_uuid (segment : string) : bool :=
  match
    s ← hex_run 8 segment; s ← dash s;
    s ← hex_run 4 s; s ← dash s;
    s ← hex_run 4 s; s ← dash s;
    s ← hex_run 4 s; s ← dash s;
    hex_run 12 s
  with
  | Some "" => true
  | _ => false
  end.

Definition not_found : HttpResponse := mkHttpResponse 404 "Not Found".

Section View.

(** The report template is not among the sources either: [render] is
    the page it produces for a document. *)
Variable render : PDFDocument → string.

(** Modelled from the spec: the view module is not among the sources;
    the report view answers 200 with the document's page when a
    [PDFDocument] has the primary key, and 404 otherwise. *)
Definition pdf_report (db : gmap string PDFDocument) (pk : string) : HttpResponse :=
  match db !! pk with
  | Some document => mkHttpResponse 200 (render document)
  | None => not_found
  end.

(** Modelled from the spec: the route [/pdf/report/<uuid:pk>/] of the
    missing URL configuration, from the path segment on: a segment the
    converter refuses matches no route (404). *)
Definition pdf_report_url (db : gmap string PDFDocument) (segment : string) : HttpResponse :=
  if is_uuid segment then pdf_report db segment else not_found.

(** [PDFDocument.objects.create(id=..., ...)]. *)
Definition objects_create (document : PDFDocument) (db : gmap string PDFDocument)
  : gmap string PDFDocument :=
  <[id document := document]> db.

(** [setUp]: one document under [test_uuid], in an empty test database. *)
Definition setUp_document (test_uuid : string) : PDFDocument := {|
  id := test_uuid;
  original_filename := "test.pdf";
  file_checksum := "test_checksum_123";
  file_size := 1024;
  user_first_name := "Test";
  user_last_name := "User";
  user_email := "test@example.com";
  user_groups := ["test_group"];
  processing_status := "completed"
|}.

Definition setUp (test_uuid : string) : gmap string PDFDocument :=
  objects_create (setUp_document test_uuid) ∅.

(** The three test methods, as the assertions they make. *)
Definition test_pdf_report_url_with_valid_uuid (test_uuid : string) : Prop :=
  let response := pdf_report_url (setUp test_uuid) test_uuid in
  status response = 200%Z ∧ contains "test.pdf" (content response).

Definition test_pdf_report_url_with_invalid_uuid (test_uuid invalid_uuid : string) : Prop :=
  let response := pdf_report_url (setUp test_uuid) invalid_uuid in
  status response = 404%Z.

Definition test_pdf_report_url_with_malformed_uuid (test_uuid : string) : Prop :=
  let response := pdf_report_url (setUp test_uuid) "not-a-uuid" in
  status response = 404%Z.

End View.

End Report.

(* ===================================================================== *)
(** * Vocabulary of the properties of the command *)
(* ===================================================================== *)

Module CommandSpec.
Import Py Posix Command.

(** The path [resolve_target_path] gives in world [w]:
    [pdf_checker_app_templates/pdf_checker_app/includes/pattern_header.html]
    under the application directory, three levels above the module. *)
Definition target_of (w : World) : path :=
  [ lit "pattern_header.html"; lit "includes"; lit "pdf_checker_app";
    lit "pdf_checker_app_templates" ] ++ parent (parent (parent (module_file w))).

(** No regular file stands where [p] or one of its ancestors should be a
    directory: each of them is a directory or is missing. *)
Fixpoint clear_way (f : gmap path node) (p : path) : bool :=
  match p with
  | [] => true
  | c :: q =>
      match f !! (c :: q) with
      | Some (File _) => false
      | _ => clear_way f q
      end
  end.

(** [p] is not a directory: a file can be written there. *)
Definition not_a_dir (f : gmap path node) (p : path) : bool :=
  match f !! p with
  | Some Dir => false
  | _ => true
  end.

(** The events a run added to the trace. *)
Definition added (w w' : World) (t : list event) : Prop :=
  trace w' = trace w ++ t.

(** The world's surroundings (settings, module location, network) are
    never changed by a run. *)
Definition same_env (w w' : World) : Prop :=
  settings w' = settings w ∧ module_file w' = module_file w ∧ net w' = net w.

(** The file system is a tree: what has an entry lies in a directory. *)
Definition tree_shaped (f : gmap path node) : Prop :=
  ∀ (c : pystr) (q : path), is_Some (f !! (c :: q)) → dir_error f q = None.

Definition is_mkdir (ev : event) : bool :=
  match ev with EvMkdir _ => true | _ => false end.

(** From [w] to [w'] directories were made and nothing else was done, and
    nothing deeper than [p] was touched. *)
Definition dirs_only (p : path) (w w' : World) : Prop :=
  same_env w w' ∧
  (∃ t, added w w' t ∧ Forall (λ ev, is_mkdir ev = true) t) ∧
  (∀ k : path, (length p < length k)%nat → fs w' !! k = fs w !! k) ∧
  (∀ (k : path) (n : node), fs w !! k = Some n → fs w' !! k = Some n).

(** [w] with the events [t] added to its trace. *)
Definition logs (t : list event) (w : World) : World :=
  mkWorld (settings w) (module_file w) (net w) (fs w) (trace w ++ t).

(** The lines [handle] prints. *)
Definition line_fetching (url : pyobj) : event :=
  EvStdout PLAIN (lit "Fetching pattern header from: " ++ py_format url).
Definition line_failed (exc : exn) : event :=
  EvStdout ERROR (lit "Failed to fetch: " ++ exn_msg exc).
Definition line_fetched (content : pystr) : event :=
  EvStdout PLAIN (lit "Fetched " ++ lit (pretty (length content)) ++ lit " characters").
Definition line_dry_run : event :=
  EvStdout WARNING (lit "Dry run - not saving").
Definition line_saved (target_path : path) : event :=
  EvStdout SUCCESS (lit "Saved to: " ++ path_str target_path).
Definition line_no_url : event :=
  EvStdout ERROR (lit "PATTERN_HEADER_URL not set in settings and --url not provided").

(** Running [m] in [w]. *)
Definition outcome {A} (m : M A) (w : World) : result A := fst (m w).
Definition after {A} (m : M A) (w : World) : World := snd (m w).

End CommandSpec.

(* ===================================================================== *)
(** * A concrete world, to run the command in *)
(* ===================================================================== *)

Module Examples.
Import Py Posix Command CommandSpec.

(** The project checked out in [/srv/pdf_checker_project]. *)
Definition app_dir : path :=
  [lit "pdf_checker_app"; lit "pdf_checker_project"; lit "srv"].

Definition command_file : path :=
  [lit "update_pattern_header.py"; lit "commands"; lit "management"] ++ app_dir.

Definition header_url : pystr := lit "https://example.org/pattern/header.html".
Definition gone_url : pystr := lit "https://example.org/pattern/gone.html".
Definition bad_url : pystr := lit "http://example.org:abc/".
Definition schemeless_url : pystr := lit "example.org/no-scheme".

Definition header_html : pystr := lit "<header>Library</header>".

(** What httpx says of a port that is no number: [InvalidURL], which is
    no [HTTPError]. *)
Definition invalid_port : exn := Exn InvalidURL (lit "Invalid port: 'abc'").

(** What it says of a URL without a scheme: [UnsupportedProtocol], which
    is a [RequestError]. *)
Definition missing_protocol : exn :=
  Exn RequestError (lit "Request URL is missing an 'http://' or 'https://' protocol.").

(** One page is served and one address answers 404; httpx refuses one
    URL for its port and one for its missing scheme; nothing else can be
    reached. *)
Definition example_net (u : pystr) : http_outcome :=
  if bool_decide (u = header_url) then Responded (mkResponse 200 header_html)
  else if bool_decide (u = gone_url) then Responded (mkResponse 404 (lit "Not Found"))
  else if bool_decide (u = bad_url) then Failed invalid_port
  else if bool_decide (u = schemeless_url) then Failed missing_protocol
  else Failed (Exn RequestError (lit "connection refused")).

(** The checkout, before the templates directory was ever made. *)
Definition example_fs : gmap path node :=
  <[ app_dir := Dir ]>
    (<[ [lit "pdf_checker_project"; lit "srv"] := Dir ]>
       (<[ [lit "srv"] := Dir ]> ∅)).

Definition example_settings : gmap string pyobj :=
  {[ "PATTERN_HEADER_URL" := PyStr header_url ]}.

Definition example_world : World :=
  mkWorld example_settings command_file example_net example_fs [].

(** The same, with a regular file where the templates directory should
    be. *)
Definition blocked_world : World :=
  mkWorld example_settings command_file example_net
    (<[ [lit "pdf_checker_app_templates"] ++ app_dir := File [] ]> example_fs) [].


(** [manage.py update_pattern_header], with and without its options. *)
Definition no_options : gmap string pyobj :=
  {[ "url" := PyNone; "dry_run" := PyBool false ]}.
Definition dry_run_options : gmap string pyobj :=
  {[ "url" := PyNone; "dry_run" := PyBool true ]}.
Definition url_options (u : pystr) : gmap string pyobj :=
  {[ "url" := PyStr u; "dry_run" := PyBool false ]}.

(** A report page that shows the file name in a heading, and the
    database of the test case. *)
Definition heading_page (document : Report.PDFDocument) : string :=
  ("<h1>" ++ Report.original_filename document ++ "</h1>")%string.

Definition test_db : gmap string Report.PDFDocument :=
  Report.setUp "123e4567-e89b-42d3-a456-426614174000".

End Examples.

(* ===================================================================== *)
(** * manage.py run as a script *)
(* ===================================================================== *)

Module Script.
Import Manage.
Local Open Scope string_scope.

(** The [django] package as the script uses it: [django.get_version()]
    and what [from django.core.management import execute_from_command_line]
    finds in it. *)
Record django_package (R : Type) : Type := mkDjango {
  get_version : string;
  management : option (list string → gmap string string → R)
}.
Arguments mkDjango {R} _ _.
Arguments get_version {R} _.
Arguments management {R} _.

(** How the script ends: the top-level [import django] fails, or [main]
    ran. *)
Inductive ending (R : Type) : Type :=
| ModuleNotFoundError
| Ended (o : outcome R).
Arguments ModuleNotFoundError {R}.
Arguments Ended {R} o.

(** The two lines printed "in case you're curious about versions". *)
Definition version_lines {R} (version_info : N * N * N) (pkg : django_package R)
  : list string :=
  let '(major, minor, micro) := version_info in
  [ "using python version, ``" ++ pretty major ++ "." ++ pretty minor ++ "."
      ++ pretty micro ++ "``";
    "using django version, ``" ++ get_version pkg ++ "``" ].

(** The module run as [__main__]: the import of line 7, the version
    lines unless [RUN_MAIN] is ['true'], then [main()].  The result is
    the environment left, the lines printed and the ending. *)
Definition run {R : Type} (django : option (django_package R))
    (version_info : N * N * N) (argv : list string) (environ : gmap string string)
  : gmap string string * list string * ending R :=
  match django with
  | None => (environ, [], ModuleNotFoundError)
  | Some pkg =>
      let printed :=
        if bool_decide (environ !! "RUN_MAIN" ≠ Some "true")
        then version_lines version_info pkg else [] in
      let '(environ, o) := main (management pkg) argv environ in
      (environ, printed, Ended o)
  end.

End Script.

(* ===================================================================== *)
(** * More vocabulary, and more concrete worlds *)
(* ===================================================================== *)

Module Vocabulary.
Import Py Posix Command CommandSpec.

(** The directories on the way to [p], outermost first and [p] last. *)
Fixpoint chain (p : path) : list path :=
  match p with
  | [] => []
  | c :: q => chain q ++ [c :: q]
  end.

(** Those of them that have no entry in [f]. *)
Definition missing_dirs (f : gmap path node) (p : path) : list path :=
  List.filter (λ k, bool_decide (f !! k = None)) (chain p).

(** [m] looks at the file system only, and at nothing else of the
    world: in two worlds with the same file system it comes to the same
    outcome and leaves the same file system. *)
Definition fs_only {A} (m : M A) : Prop :=
  ∀ w1 w2, fs w1 = fs w2 →
    outcome m w1 = outcome m w2 ∧ fs (after m w1) = fs (after m w2).

(** A code point of the surrogate range U+D800..U+DFFF. *)
Definition is_surrogate (c : N) : bool := (0xD800 <=? c) && (c <=? 0xDFFF).

(** A line printed with [self.style.SUCCESS]. *)
Definition is_success_line (ev : event) : bool :=
  match ev with EvStdout SUCCESS _ => true | _ => false end.

(** All the fields the [fieldsets] of an admin class show. *)
Definition fieldset_fields (cls : Admin.ModelAdmin) : list string :=
  concat (map Admin.fs_fields (Admin.fieldsets cls)).

(** The checkout after an earlier run: the include file is there, with
    the header of that day. *)
Definition old_header : bytes := lit "<header>2019</header>".

Definition installed_fs : gmap path node :=
  <[ [lit "pattern_header.html"; lit "includes"; lit "pdf_checker_app";
      lit "pdf_checker_app_templates"] ++ Examples.app_dir := File old_header ]>
  (<[ [lit "includes"; lit "pdf_checker_app"; lit "pdf_checker_app_templates"]
      ++ Examples.app_dir := Dir ]>
  (<[ [lit "pdf_checker_app"; lit "pdf_checker_app_templates"] ++ Examples.app_dir := Dir ]>
  (<[ [lit "pdf_checker_app_templates"] ++ Examples.app_dir := Dir ]>
     Examples.example_fs))).

Definition installed_world : World :=
  mkWorld Examples.example_settings Examples.command_file Examples.example_net
    installed_fs [].


(** Settings with a number where the URL should be. *)
Definition misconfigured_world : World :=
  mkWorld {[ "PATTERN_HEADER_URL" := PyInt 5 ]} Examples.command_file
    Examples.example_net Examples.example_fs [].

(** A text with an unpaired surrogate in it. *)
Definition broken_text : pystr := lit "<header>" ++ [0xD83D] ++ lit "</header>".

(** The ways a run of [handle] can go. *)
Inductive handle_case (options : gmap string pyobj) (w : World)
  : result unit → World → Prop :=
| case_no_url :
    truthy (handle_url options (settings w)) = false →
    handle_case options w (Ok ()) (logs [line_no_url] w)
| case_bad_url :
    truthy (handle_url options (settings w)) = true →
    isinstance_str (handle_url options (settings w)) = false →
    handle_case options w (Raise (Exn TypeError (lit "Invalid type for url")))
      (logs [line_fetching (handle_url options (settings w))] w)
| case_caught (u : pystr) (e : exn) :
    handle_url options (settings w) = PyStr u → u ≠ [] →
    outcome (fetch_pattern_header (PyStr u)) w = Raise e →
    is_HTTPError e = true →
    handle_case options w (Ok ())
      (logs [line_fetching (PyStr u); EvGet u; line_failed e] w)
| case_uncaught (u : pystr) (e : exn) :
    handle_url options (settings w) = PyStr u → u ≠ [] →
    outcome (fetch_pattern_header (PyStr u)) w = Raise e →
    is_HTTPError e = false →
    handle_case options w (Raise e) (logs [line_fetching (PyStr u); EvGet u] w)
| case_dry_run (u content : pystr) :
    handle_url options (settings w) = PyStr u → u ≠ [] →
    outcome (fetch_pattern_header (PyStr u)) w = Ok content →
    truthy (dict_get options "dry_run") = true →
    handle_case options w (Ok ())
      (logs [line_fetching (PyStr u); EvGet u; line_fetched content; line_dry_run] w)
| case_saved (u content : pystr) (w4 : World) :
    handle_url options (settings w) = PyStr u → u ≠ [] →
    outcome (fetch_pattern_header (PyStr u)) w = Ok content →
    truthy (dict_get options "dry_run") = false →
    save_pattern_header content (target_of w)
      (logs [line_fetching (PyStr u); EvGet u; line_fetched content] w) = (Ok (), w4) →
    handle_case options w (Ok ()) (logs [line_saved (target_of w)] w4)
| case_save_failed (u content : pystr) (e : exn) (w4 : World) :
    handle_url options (settings w) = PyStr u → u ≠ [] →
    outcome (fetch_pattern_header (PyStr u)) w = Ok content →
    truthy (dict_get options "dry_run") = false →
    save_pattern_header content (target_of w)
      (logs [line_fetching (PyStr u); EvGet u; line_fetched content] w) = (Raise e, w4) →
    handle_case options w (Raise e) w4.

End Vocabulary.

(* ===================================================================== *)
(** * Facts about the file system calls *)
(* ===================================================================== *)

Module PosixFacts.
Import Py Posix CommandSpec.

Ltac unfold_M :=
  unfold mbind, M_bind, bind, mret, M_ret, ret, raise, try_except, get_world,
    stdout_write in *.

Ltac unfold_M_in H :=
  unfold mbind, M_bind, bind, mret, M_ret, ret, raise, try_except, get_world,
    stdout_write in H.

(** Resolving [p] looks at [p] and its ancestors only. *)
Lemma dir_error_insert_deeper (f : gmap path node) (p k : path) (v : node) :
  (length p < length k)%nat → dir_error (<[k := v]> f) p = dir_error f p.
Proof.
  induction p as [|c q IH]; simpl; intros Hlen; [done|].
  rewrite IH by lia.
  rewrite lookup_insert_ne; [done|].
  intros ->. simpl in Hlen. lia.
Qed.

Lemma dir_error_made (f : gmap path node) (c : pystr) (q : path) :
  dir_error f q = None → dir_error (<[c :: q := Dir]> f) (c :: q) = None.
Proof.
  intros Hq. simpl.
  rewrite dir_error_insert_deeper by (simpl; lia).
  rewrite Hq. by rewrite lookup_insert_eq.
Qed.

(** With no file in the way, resolution fails only on a missing
    directory. *)
Lemma clear_way_dir_error (f : gmap path node) (p : path) :
  clear_way f p = true →
  dir_error f p = None ∨ dir_error f p = Some FileNotFoundError.
Proof.
  induction p as [|c q IH]; simpl; [by left|].
  destruct (f !! (c :: q)) as [[|b]|] eqn:Hp; intros Hc; try done.
  - destruct (IH Hc) as [-> | ->]; auto.
  - destruct (IH Hc) as [-> | ->]; auto.
Qed.

Lemma clear_way_insert_deeper (f : gmap path node) (p k : path) (v : node) :
  (length p < length k)%nat → clear_way (<[k := v]> f) p = clear_way f p.
Proof.
  induction p as [|c q IH]; simpl; intros Hlen; [done|].
  rewrite lookup_insert_ne; [|intros ->; simpl in Hlen; lia].
  rewrite IH by lia. done.
Qed.

(** [mkdir] on a directory that is there: allowed by [exist_ok], and
    nothing happens. *)
Lemma mkdir_parents_existing (p : path) (w : World) :
  dir_error (fs w) p = None → mkdir_parents true p w = (Ok (), w).
Proof.
  destruct p as [|c q]; simpl; intros Hd.
  - by unfold_M.
  - unfold_M. unfold os_mkdir, is_dir. simpl.
    destruct (dir_error (fs w) q) as [err|] eqn:Hq; [done|].
    destruct (fs w !! (c :: q)) as [[|b]|] eqn:Hp; try done.
    simpl. rewrite Hq, Hp. done.
Qed.

Lemma dirs_only_refl (p : path) (w : World) : dirs_only p w w.
Proof.
  split; [done|]. split; [|done].
  exists []. split; [|constructor]. unfold added. by rewrite app_nil_r.
Qed.

Lemma dirs_only_trans (p q : path) (w1 w2 w3 : World) :
  (length q ≤ length p)%nat →
  dirs_only q w1 w2 → dirs_only p w2 w3 → dirs_only p w1 w3.
Proof.
  intros Hlen ((Hs1 & Hm1 & Hn1) & (t1 & Ht1 & Hq1) & Hk1 & Hkeep1)
              ((Hs2 & Hm2 & Hn2) & (t2 & Ht2 & Hq2) & Hk2 & Hkeep2).
  split; [|split; [|split]].
  - repeat split; congruence.
  - exists (t1 ++ t2). split.
    + unfold added in *. rewrite Ht2, Ht1. by rewrite app_assoc.
    + by apply Forall_app.
  - intros k Hk. rewrite Hk2 by done. apply Hk1. lia.
  - intros k n Hk. by apply Hkeep2, Hkeep1.
Qed.

Lemma dirs_only_made (p : path) (w : World) :
  fs w !! p = None →
  dirs_only p w (log (EvMkdir p) (set_fs (<[p := Dir]> (fs w)) w)).
Proof.
  intros Hnone. split; [|split; [|split]].
  - done.
  - exists [EvMkdir p]. split; [done|]. by repeat constructor.
  - intros k Hk. simpl. apply lookup_insert_ne. intros ->. lia.
  - intros k n Hk. simpl. rewrite lookup_insert_ne; [done|]. congruence.
Qed.

Lemma os_mkdir_frame (p : path) (w w' : World) (r : result unit) :
  os_mkdir p w = (r, w') →
  (r = Ok () ∧ w' = log (EvMkdir p) (set_fs (<[p := Dir]> (fs w)) w)
   ∧ dir_error (fs w') p = None ∧ fs w !! p = None)
  ∨ (∃ e, r = Raise e ∧ w' = w).
Proof.
  unfold os_mkdir. destruct p as [|c q].
  - intros [= <- <-]. right. eauto.
  - destruct (dir_error (fs w) q) as [err|] eqn:Hq.
    + intros [= <- <-]. right. eauto.
    + destruct (fs w !! (c :: q)) as [n|] eqn:Hp; intros [= <- <-].
      * right. eauto.
      * left. split; [done|]. split; [done|]. split; [|done].
        by apply dir_error_made.
Qed.

(** [Path.mkdir] makes directories and nothing else, whatever comes of
    it; when it returns, the directory is there. *)
Lemma mkdir_flat_frame (exist_ok : bool) (p : path) (w w' : World) (r : result unit) :
  mkdir_flat exist_ok p w = (r, w') →
  dirs_only p w w' ∧ (r = Ok () → dir_error (fs w') p = None).
Proof.
  unfold mkdir_flat. unfold_M.
  destruct (os_mkdir p w) as [r0 w0] eqn:Hos.
  apply os_mkdir_frame in Hos as [(-> & -> & Hd & Hnone) | (e & -> & ->)].
  - intros [= <- <-]. split; [by apply dirs_only_made | done].
  - unfold is_dir. destruct (is_OSError e), (is_FileNotFoundError e); simpl;
      try (intros [= <- <-]; split; [apply dirs_only_refl | done]).
    destruct (dir_error (fs w) p) eqn:Hd, exist_ok; simpl;
      intros [= <- <-]; (split; [apply dirs_only_refl | done]).
Qed.

Lemma mkdir_parents_frame (exist_ok : bool) (p : path) (w w' : World) (r : result unit) :
  mkdir_parents exist_ok p w = (r, w') →
  dirs_only p w w' ∧ (r = Ok () → dir_error (fs w') p = None).
Proof.
  revert exist_ok w w' r.
  induction p as [|c q IH]; intros exist_ok w w' r; simpl; unfold_M.
  - simpl. destruct exist_ok; simpl; intros [= <- <-];
      (split; [apply dirs_only_refl | done]).
  - destruct (os_mkdir (c :: q) w) as [r0 w0] eqn:Hos.
    apply os_mkdir_frame in Hos as [(-> & -> & Hd & Hnone) | (e & -> & ->)].
    { intros [= <- <-]. split; [by apply dirs_only_made | done]. }
    destruct (is_OSError e); [|intros [= <- <-]; split; [apply dirs_only_refl | done]].
    destruct (is_FileNotFoundError e).
    + destruct (mkdir_parents true q w) as [r1 w1] eqn:Hup.
      apply IH in Hup as [Hfr1 _].
      destruct r1 as [[]|e1].
      * intros Hflat. apply mkdir_flat_frame in Hflat as [Hfr2 Hok].
        split; [|done].
        eapply dirs_only_trans; [|exact Hfr1|exact Hfr2]. simpl. lia.
      * intros [= <- <-]. split; [|done].
        eapply dirs_only_trans; [|exact Hfr1|apply dirs_only_refl]. simpl. lia.
    + unfold is_dir.
      destruct (dir_error (fs w) (c :: q)) eqn:Hd, exist_ok; simpl;
        intros [= <- <-]; (split; [apply dirs_only_refl | done]).
Qed.

(** With no regular file in the way, [mkdir(parents=True,
    exist_ok=True)] returns and the directory is there. *)
Lemma mkdir_parents_clear (p : path) (w : World) :
  clear_way (fs w) p = true →
  ∃ w', mkdir_parents true p w = (Ok (), w').
Proof.
  revert w. induction p as [|c q IH]; intros w Hclear.
  - exists w. by apply mkdir_parents_existing.
  - simpl in Hclear.
    assert (clear_way (fs w) q = true ∧ ∀ b, fs w !! (c :: q) ≠ Some (File b))
      as [Hq Hp].
    { destruct (fs w !! (c :: q)) as [[|b]|]; try done. }
    simpl. unfold_M. unfold os_mkdir.
    destruct (clear_way_dir_error _ _ Hq) as [Hd | Hd]; rewrite Hd.
    + destruct (fs w !! (c :: q)) as [[|b]|] eqn:Hl.
      * simpl. unfold is_dir. simpl. rewrite Hd, Hl. eauto.
      * by destruct (Hp b).
      * eauto.
    + simpl.
      destruct (IH w Hq) as [w1 Hup]. rewrite Hup.
      pose proof (mkdir_parents_frame _ _ _ _ _ Hup) as [(_ & _ & Hdeep & _) Hdir].
      specialize (Hdir eq_refl).
      specialize (Hdeep (c :: q) ltac:(simpl; lia)).
      unfold mkdir_flat, os_mkdir. unfold_M. rewrite Hdir.
      destruct (fs w1 !! (c :: q)) as [[|b]|] eqn:Hl.
      * simpl. unfold is_dir. simpl. rewrite Hdir, Hl. eauto.
      * rewrite Hdeep in Hl. by destruct (Hp b).
      * eauto.
Qed.

(** ** The file system stays a tree *)

Lemma dir_error_insert_beside (f : gmap path node) (p q : path) (v : node) :
  dir_error f q = None → f !! p ≠ Some Dir →
  dir_error (<[p := v]> f) q = None.
Proof.
  intros Hq Hp. induction q as [|c q IH]; [done|].
  simpl in *. destruct (dir_error f q) as [err|]; [done|].
  rewrite IH by done.
  destruct (f !! (c :: q)) as [[|b]|] eqn:Hl; try done.
  rewrite lookup_insert_ne; [by rewrite Hl|]. intros ->. by rewrite Hl in Hp.
Qed.

Lemma tree_shaped_insert (f : gmap path node) (c : pystr) (q : path) (v : node) :
  tree_shaped f → dir_error f q = None → f !! (c :: q) ≠ Some Dir →
  tree_shaped (<[c :: q := v]> f).
Proof.
  intros Htree Hq Hp c' q' Hsome.
  apply dir_error_insert_beside; [|done].
  destruct (decide (c :: q = c' :: q')) as [[= <- <-]|Hne]; [done|].
  rewrite lookup_insert_ne in Hsome by done. exact (Htree c' q' Hsome).
Qed.

Lemma os_mkdir_keeps_tree (p : path) (w w' : World) (r : result unit) :
  tree_shaped (fs w) → os_mkdir p w = (r, w') → tree_shaped (fs w').
Proof.
  intros Htree. unfold os_mkdir. destruct p as [|c q]; [by intros [= <- <-]|].
  destruct (dir_error (fs w) q) as [err|] eqn:Hq; [by intros [= <- <-]|].
  destruct (fs w !! (c :: q)) as [n|] eqn:Hp; intros [= <- <-]; [done|].
  simpl. apply tree_shaped_insert; try done. by rewrite Hp.
Qed.

Lemma mkdir_flat_keeps_tree (exist_ok : bool) (p : path) (w w' : World) (r : result unit) :
  tree_shaped (fs w) → mkdir_flat exist_ok p w = (r, w') → tree_shaped (fs w').
Proof.
  intros Htree. unfold mkdir_flat. unfold_M.
  destruct (os_mkdir p w) as [r0 w0] eqn:Hos.
  pose proof (os_mkdir_keeps_tree _ _ _ _ Htree Hos) as Htree0.
  destruct r0 as [[]|e0]; [by intros [= <- <-]|].
  unfold is_dir.
  destruct (is_OSError e0), (is_FileNotFoundError e0); simpl;
    try (by intros [= <- <-]).
  by destruct (dir_error (fs w0) p), exist_ok; simpl; intros [= <- <-].
Qed.

Lemma mkdir_parents_keeps_tree (exist_ok : bool) (p : path) (w w' : World) (r : result unit) :
  tree_shaped (fs w) → mkdir_parents exist_ok p w = (r, w') → tree_shaped (fs w').
Proof.
  revert exist_ok w w' r.
  induction p as [|c q IH]; intros exist_ok w w' r Htree; simpl; unfold_M.
  { simpl. by destruct exist_ok; simpl; intros [= <- <-]. }
  destruct (os_mkdir (c :: q) w) as [r0 w0] eqn:Hos.
  pose proof (os_mkdir_keeps_tree _ _ _ _ Htree Hos) as Htree0.
  destruct r0 as [[]|e0]; [by intros [= <- <-]|].
  destruct (is_OSError e0); [|by intros [= <- <-]].
  destruct (is_FileNotFoundError e0).
  - destruct (mkdir_parents true q w0) as [r1 w1] eqn:Hup.
    pose proof (IH _ _ _ _ Htree0 Hup) as Htree1.
    destruct r1 as [[]|e1]; [|by intros [= <- <-]].
    by apply mkdir_flat_keeps_tree.
  - unfold is_dir.
    by destruct (dir_error (fs w0) (c :: q)), exist_ok; simpl; intros [= <- <-].
Qed.

Lemma write_text_keeps_tree (p : path) (data : pystr) (w w' : World) (r : result unit) :
  tree_shaped (fs w) → Path_write_text p data w = (r, w') → tree_shaped (fs w').
Proof.
  intros Htree. unfold Path_write_text, open_w, file_write. unfold_M.
  destruct p as [|c q]; [by intros [= <- <-]|].
  destruct (dir_error (fs w) q) as [err|] eqn:Hq; [by intros [= <- <-]|].
  assert (fs w !! (c :: q) ≠ Some Dir →
          ∀ v, tree_shaped (<[c :: q := v]> (<[c :: q := File []]> (fs w)))) as Hins.
  { intros Hp v. rewrite insert_insert_eq. by apply tree_shaped_insert. }
  destruct (fs w !! (c :: q)) as [[|b0]|] eqn:Hp; [by intros [= <- <-]| |].
  - destruct (encode_utf8 data) as [b|]; unfold raise; intros [= <- <-]; simpl.
    + by apply Hins.
    + rewrite <- (insert_insert_eq (fs w) (c :: q) (File []) (File [])). by apply Hins.
  - destruct (encode_utf8 data) as [b|]; unfold raise; intros [= <- <-]; simpl.
    + by apply Hins.
    + rewrite <- (insert_insert_eq (fs w) (c :: q) (File []) (File [])). by apply Hins.
Qed.

(** [mkdir] once more, in the world the first call left: the same
    answer, and nothing changes. *)
Lemma mkdir_parents_again (p : path) (w w1 : World) (r : result unit) :
  mkdir_parents true p w = (r, w1) →
  ∃ r2, mkdir_parents true p w1 = (r2, w1) ∧ (r = Ok () ↔ r2 = Ok ()).
Proof.
  revert w w1 r. induction p as [|c q IH]; intros w w1 r.
  { rewrite (mkdir_parents_existing [] w) by done. intros [= <- <-].
    exists (Ok ()). by rewrite (mkdir_parents_existing [] w). }
  intros Hrun.
  destruct r as [[]|e].
  { apply mkdir_parents_frame in Hrun as [_ Hdir].
    exists (Ok ()). by rewrite (mkdir_parents_existing _ _ (Hdir eq_refl)). }
  assert (∀ (w0 : World) (err : exc_class),
            dir_error (fs w0) (c :: q) = Some err → err ≠ FileNotFoundError →
            ∃ e2, mkdir_parents true (c :: q) w0 = (Raise e2, w0)) as Hstuck.
  { intros w0 err Herr Hnf. simpl. unfold_M. unfold os_mkdir, is_dir.
    simpl in Herr.
    destruct (dir_error (fs w0) q) as [err'|] eqn:Hq.
    - injection Herr as ->.
      destruct err; try done; simpl; try rewrite Hq; simpl; eauto.
    - destruct (fs w0 !! (c :: q)) as [[|b]|] eqn:Hp; try done.
      + simpl. rewrite Hq, Hp. simpl. eauto.
      + injection Herr as <-. done. }
  assert (∃ e2, mkdir_parents true (c :: q) w1 = (Raise e2, w1)) as [e2 He2];
    [|exists (Raise e2); by split].
  simpl in Hrun. unfold_M_in Hrun.
  destruct (os_mkdir (c :: q) w) as [r0 w0] eqn:Hos.
  unfold os_mkdir in Hos.
  destruct (dir_error (fs w) q) as [err|] eqn:Hq.
  - injection Hos as <- <-.
    destruct (decide (err = FileNotFoundError)) as [->|Hother].
    + (* the parent was missing: it was made, or could not be *)
      simpl in Hrun.
      destruct (mkdir_parents true q w) as [r1 wq] eqn:Hup.
      destruct r1 as [[]|e1].
      * pose proof (mkdir_parents_frame _ _ _ _ _ Hup) as [_ Hdir].
        specialize (Hdir eq_refl).
        unfold mkdir_flat, os_mkdir, is_dir in Hrun. unfold_M_in Hrun.
        rewrite Hdir in Hrun.
        destruct (fs wq !! (c :: q)) as [[|b]|] eqn:Hp; simpl in Hrun.
        -- by rewrite Hdir, Hp in Hrun.
        -- rewrite Hdir, Hp in Hrun. simpl in Hrun. injection Hrun as <- <-.
           apply (Hstuck _ NotADirectoryError); [|done].
           simpl. by rewrite Hdir, Hp.
        -- done.
      * injection Hrun as <- <-.
        destruct (IH _ _ _ Hup) as (r2 & Hagain & Hiff).
        destruct r2 as [[]|e2];
          [by destruct Hiff as [_ Hiff]; specialize (Hiff eq_refl)|].
        destruct (dir_error (fs wq) q) as [err|] eqn:Hq1.
        -- destruct (decide (err = FileNotFoundError)) as [->|Hother].
           ++ simpl. unfold_M. unfold os_mkdir. rewrite Hq1. simpl.
              rewrite Hagain. eauto.
           ++ apply (Hstuck _ err); [|done]. simpl. by rewrite Hq1.
        -- by rewrite (mkdir_parents_existing _ _ Hq1) in Hagain.
    + assert (w1 = w) as ->.
      { destruct err; try done; simpl in Hrun; unfold is_dir in Hrun;
          simpl in Hrun; try rewrite Hq in Hrun; simpl in Hrun;
          by injection Hrun as _ <-. }
      apply (Hstuck _ err); [|done]. simpl. by rewrite Hq.
  - destruct (fs w !! (c :: q)) as [[|b]|] eqn:Hp; injection Hos as <- <-;
      simpl in Hrun.
    + unfold is_dir in Hrun. simpl in Hrun. by rewrite Hq, Hp in Hrun.
    + unfold is_dir in Hrun. simpl in Hrun. rewrite Hq, Hp in Hrun.
      simpl in Hrun. injection Hrun as <- <-.
      apply (Hstuck _ NotADirectoryError); [|done]. simpl. by rewrite Hq, Hp.
    + done.
Qed.

Lemma count_app (f : event → bool) (t1 t2 : list event) :
  count f (t1 ++ t2) = (count f t1 + count f t2)%nat.
Proof. unfold count. by rewrite List.filter_app, length_app. Qed.

Lemma count_mkdirs (f : event → bool) (t : list event) :
  (∀ p, f (EvMkdir p) = false) →
  Forall (λ ev, is_mkdir ev = true) t → count f t = 0%nat.
Proof.
  intros Hf. induction 1 as [|ev t Hev _ IH]; [done|].
  destruct ev; try done. unfold count in *. simpl. by rewrite Hf.
Qed.

(** What [write_text] can come to: the file cannot be opened and nothing
    changes; or it is opened, so emptied, and the text has no encoding;
    or the encoded text is in the file. *)
Lemma write_text_cases (p : path) (data : pystr) (w w' : World) (r : result unit) :
  Path_write_text p data w = (r, w') →
  (∃ e, r = Raise e ∧ w' = w)
  ∨ (∃ e, r = Raise e ∧ encode_utf8 data = None
          ∧ dir_error (fs w) (parent p) = None ∧ p ≠ []
          ∧ w' = set_fs (<[p := File []]> (fs w)) w)
  ∨ (∃ b, r = Ok () ∧ encode_utf8 data = Some b
          ∧ dir_error (fs w) (parent p) = None ∧ p ≠ []
          ∧ w' = log (EvWrite p b) (set_fs (<[p := File b]> (fs w)) w)).
Proof.
  unfold Path_write_text, open_w, file_write. unfold_M.
  destruct p as [|c q]; [intros [= <- <-]; left; eauto|].
  destruct (dir_error (fs w) q) as [err|] eqn:Hq; [intros [= <- <-]; left; eauto|].
  assert (∀ w0, w0 = set_fs (<[c :: q := File []]> (fs w)) w →
     match encode_utf8 data with
     | Some b => file_write (c :: q) b
     | None => raise (Exn UnicodeEncodeError (lit "surrogates not allowed"))
     end w0 = (r, w') →
     (∃ e, r = Raise e ∧ w' = w)
     ∨ (∃ e, r = Raise e ∧ encode_utf8 data = None
             ∧ dir_error (fs w) (parent (c :: q)) = None ∧ c :: q ≠ []
             ∧ w' = set_fs (<[c :: q := File []]> (fs w)) w)
     ∨ (∃ b, r = Ok () ∧ encode_utf8 data = Some b
             ∧ dir_error (fs w) (parent (c :: q)) = None ∧ c :: q ≠ []
             ∧ w' = log (EvWrite (c :: q) b) (set_fs (<[c :: q := File b]> (fs w)) w)))
    as Hrest.
  { intros w0 -> . destruct (encode_utf8 data) as [b|] eqn:Henc.
    - unfold file_write. intros [= <- <-]. right. right. exists b.
      do 4 (split; [done|]). simpl. unfold log, set_fs. simpl.
      by rewrite insert_insert_eq.
    - unfold raise. intros [= <- <-]. right. left. eexists. by do 4 (split; [done|]). }
  destruct (fs w !! (c :: q)) as [[|b0]|] eqn:Hp.
  - intros [= <- <-]. left; eauto.
  - by apply Hrest.
  - by apply Hrest.
Qed.

Lemma write_text_ok (p : path) (data : pystr) (b : bytes) (w : World) :
  p ≠ [] →
  dir_error (fs w) (parent p) = None →
  not_a_dir (fs w) p = true →
  encode_utf8 data = Some b →
  Path_write_text p data w
  = (Ok (), log (EvWrite p b) (set_fs (<[p := File b]> (fs w)) w)).
Proof.
  intros Hne Hd Hn Henc.
  unfold Path_write_text, open_w, file_write. unfold_M.
  destruct p as [|c q]; [done|]. simpl in Hd. rewrite Hd.
  unfold not_a_dir in Hn. rewrite Henc.
  destruct (fs w !! (c :: q)) as [[|b0]|]; try done;
    unfold log, set_fs; simpl; by rewrite insert_insert_eq.
Qed.

End PosixFacts.

(* ===================================================================== *)
(** * Facts about the command's functions *)
(* ===================================================================== *)

Module CommandFacts.
Import Py Posix Command CommandSpec PosixFacts.

Lemma logs_logs (t1 t2 : list event) (w : World) :
  logs t2 (logs t1 w) = logs (t1 ++ t2) w.
Proof. unfold logs. simpl. by rewrite app_assoc. Qed.

Lemma log_logs (ev : event) (w : World) : log ev w = logs [ev] w.
Proof. done. Qed.

Lemma added_logs (t : list event) (w : World) : added w (logs t w) t.
Proof. done. Qed.

Lemma added_inj (w w' : World) (t1 t2 : list event) :
  added w w' t1 → added w w' t2 → t1 = t2.
Proof. unfold added. intros H1 H2. rewrite H1 in H2. by apply app_inv_head in H2. Qed.

Lemma target_of_cons (w : World) :
  ∃ c q, target_of w = c :: q ∧ parent (target_of w) = q.
Proof. unfold target_of. simpl. eauto. Qed.

Lemma resolve_target_path_eq (w : World) :
  resolve_target_path w = (Ok (target_of w), w).
Proof. done. Qed.

(** ** [fetch_pattern_header] *)

Lemma fetch_responded (u : pystr) (r : Response) (w : World) :
  net w u = Responded r →
  fetch_pattern_header (PyStr u) w
  = (if Httpx.is_success r then Ok (text r)
     else Raise (Exn HTTPStatusError (lit "HTTP status " ++ lit (pretty (status_code r)))),
     logs [EvGet u] w).
Proof.
  intros Hnet. unfold fetch_pattern_header, Httpx.get, Httpx.raise_for_status.
  unfold_M. rewrite Hnet. by destruct (Httpx.is_success r).
Qed.

Lemma fetch_failed (u : pystr) (e : exn) (w : World) :
  net w u = Failed e →
  fetch_pattern_header (PyStr u) w = (Raise e, logs [EvGet u] w).
Proof.
  intros Hnet. unfold fetch_pattern_header, Httpx.get. unfold_M. by rewrite Hnet.
Qed.

(** The answer of [fetch_pattern_header] depends on the network only. *)
Lemma fetch_outcome_logs (url : pyobj) (t : list event) (w : World) :
  outcome (fetch_pattern_header url) (logs t w) = outcome (fetch_pattern_header url) w.
Proof.
  unfold outcome, fetch_pattern_header, Httpx.get, Httpx.raise_for_status.
  unfold_M. destruct url as [| | |u]; try done. simpl.
  destruct (net w u) as [r|e]; [|done].
  by destruct (Httpx.is_success r).
Qed.

Lemma fetch_after (u : pystr) (w : World) :
  after (fetch_pattern_header (PyStr u)) w = logs [EvGet u] w.
Proof.
  unfold after. destruct (net w u) as [r|e] eqn:Hnet.
  - by rewrite (fetch_responded _ _ _ Hnet).
  - by rewrite (fetch_failed _ _ _ Hnet).
Qed.

(** ** [save_pattern_header] *)

Lemma save_frame (content : pystr) (tp : path) (w w' : World) (r : result unit) :
  save_pattern_header content tp w = (r, w') →
  same_env w w' ∧
  ∃ dirs, Forall (λ ev, is_mkdir ev = true) dirs ∧
    ((∃ e, r = Raise e ∧ added w w' dirs)
     ∨ (∃ b, r = Ok () ∧ encode_utf8 content = Some b
             ∧ added w w' (dirs ++ [EvWrite tp b])
             ∧ fs w' !! tp = Some (File b)
             ∧ dir_error (fs w') (parent tp) = None ∧ tp ≠ []
             ∧ (∀ k n, k ≠ tp → fs w !! k = Some n → fs w' !! k = Some n))).
Proof.
  unfold save_pattern_header, Path_mkdir. unfold_M.
  destruct (mkdir_parents true (parent tp) w) as [r1 w1] eqn:Hmk.
  apply mkdir_parents_frame in Hmk as [(Henv & (dirs & Hadd & Hdirs) & _ & Hkeep) _].
  destruct r1 as [[]|e1].
  - intros Hwr. apply write_text_cases in Hwr
      as [(e & -> & ->) | [(e & -> & Henc & _ & _ & ->)
                           | (b & -> & Henc & Hd & Hne & ->)]].
    + split; [done|]. exists dirs. split; [done|]. left. eauto.
    + split; [done|]. exists dirs. split; [done|]. left. eauto.
    + split; [done|]. exists dirs. split; [done|]. right. exists b.
      repeat split; try done.
      * unfold added in *. simpl. by rewrite Hadd, app_assoc.
      * simpl. apply lookup_insert_eq.
      * simpl. rewrite dir_error_insert_deeper; [done|].
        destruct tp; simpl in *; [done|lia].
      * intros k n Hk Hlook. simpl. rewrite lookup_insert_ne by done.
        by apply Hkeep.
  - intros [= <- <-]. split; [done|]. exists dirs. split; [done|]. left. eauto.
Qed.

Lemma save_total (content : pystr) (tp : path) (b : bytes) (w : World) :
  tp ≠ [] →
  clear_way (fs w) (parent tp) = true →
  not_a_dir (fs w) tp = true →
  encode_utf8 content = Some b →
  ∃ w', save_pattern_header content tp w = (Ok (), w').
Proof.
  intros Hne Hclear Hnd Henc.
  destruct (mkdir_parents_clear _ _ Hclear) as [w1 Hmk].
  pose proof (mkdir_parents_frame _ _ _ _ _ Hmk) as [(_ & _ & Hdeep & _) Hdir].
  specialize (Hdir eq_refl).
  assert (fs w1 !! tp = fs w !! tp) as Htp.
  { apply Hdeep. destruct tp; [done|]. simpl. lia. }
  unfold save_pattern_header, Path_mkdir. unfold_M. rewrite Hmk.
  eexists. apply write_text_ok; try done.
  unfold not_a_dir in *. by rewrite Htp.
Qed.

(** Saving again what was just saved: the same file system. *)
Lemma save_again (content : pystr) (tp : path) (w w1 : World) :
  save_pattern_header content tp w = (Ok (), w1) →
  ∃ w2, save_pattern_header content tp w1 = (Ok (), w2) ∧ fs w2 = fs w1.
Proof.
  intros Hsave. apply save_frame in Hsave
    as (_ & dirs & _ & [(e & He & _) | (b & _ & Henc & _ & Htp & Hdir & Hne & _)]);
    [done|].
  unfold save_pattern_header, Path_mkdir. unfold_M.
  rewrite (mkdir_parents_existing _ _ Hdir).
  rewrite (write_text_ok tp content b w1); try done.
  - eexists. split; [done|]. simpl. by apply insert_id.
  - unfold not_a_dir. by rewrite Htp.
Qed.

(** Saving again after either outcome: the same outcome, and the file
    system the first call left. *)
Lemma save_rerun (content : pystr) (tp : path) (w w1 : World) (r : result unit) :
  save_pattern_header content tp w = (r, w1) →
  ∃ r2 w2, save_pattern_header content tp w1 = (r2, w2)
           ∧ fs w2 = fs w1 ∧ (r = Ok () ↔ r2 = Ok ()).
Proof.
  intros Hsave.
  destruct r as [[]|e].
  { destruct (save_again _ _ _ _ Hsave) as (w2 & Hagain & Hfs).
    exists (Ok ()), w2. done. }
  unfold save_pattern_header, Path_mkdir in *. unfold_M.
  destruct (mkdir_parents true (parent tp) w) as [rm wm] eqn:Hmk.
  destruct rm as [[]|em].
  - pose proof (mkdir_parents_frame _ _ _ _ _ Hmk) as [_ Hdir].
    specialize (Hdir eq_refl).
    pose proof Hsave as Hwr.
    apply write_text_cases in Hwr
      as [(e' & _ & ->) | [(e' & _ & Henc & _ & Hne & ->) | (b & ? & _)]];
      [| |done].
    + rewrite (mkdir_parents_existing _ _ Hdir), Hsave.
      exists (Raise e), wm. done.
    + assert (dir_error (<[tp := File []]> (fs wm)) (parent tp) = None) as Hdir'.
      { rewrite dir_error_insert_deeper; [done|]. destruct tp; [done|simpl; lia]. }
      rewrite (mkdir_parents_existing (parent tp) (set_fs _ wm) Hdir').
      unfold Path_write_text, open_w. unfold_M.
      destruct tp as [|c q]; [done|]. simpl in Hdir'. simpl. rewrite Hdir'.
      rewrite lookup_insert_eq, Henc. unfold raise.
      eexists _, _. split; [done|]. split; [|done].
      simpl. by rewrite insert_insert_eq.
  - injection Hsave as <- <-.
    destruct (mkdir_parents_again _ _ _ _ Hmk) as (r2 & -> & Hiff).
    destruct r2 as [[]|e2]; [by destruct Hiff as [_ Hiff]; specialize (Hiff eq_refl)|].
    exists (Raise e2), wm. done.
Qed.

Lemma save_keeps_tree (content : pystr) (tp : path) (w w' : World) (r : result unit) :
  tree_shaped (fs w) → save_pattern_header content tp w = (r, w') →
  tree_shaped (fs w').
Proof.
  intros Htree. unfold save_pattern_header, Path_mkdir. unfold_M.
  destruct (mkdir_parents true (parent tp) w) as [r1 w1] eqn:Hmk.
  pose proof (mkdir_parents_keeps_tree _ _ _ _ _ Htree Hmk) as Htree1.
  destruct r1 as [[]|e1]; [|by intros [= <- <-]].
  by apply write_text_keeps_tree.
Qed.

(** ** [handle], case by case *)

Lemma handle_no_url (options : gmap string pyobj) (w : World) :
  truthy (handle_url options (settings w)) = false →
  handle options w = (Ok (), logs [line_no_url] w).
Proof. intros Hurl. unfold handle. unfold_M. by rewrite Hurl. Qed.

(** With a URL, [handle] announces the fetch and goes on from its
    outcome. *)
Lemma handle_fetches (options : gmap string pyobj) (w : World) :
  let url := handle_url options (settings w) in
  truthy url = true →
  handle options w =
    match fetch_pattern_header url (logs [line_fetching url] w) with
    | (Ok content, w2) =>
        if truthy (dict_get options "dry_run") then
          (Ok (), logs [line_fetched content; line_dry_run] w2)
        else
          match save_pattern_header content (target_of w)
                  (logs [line_fetched content] w2) with
          | (Ok _, w4) => (Ok (), logs [line_saved (target_of w)] w4)
          | (Raise e, w4) => (Raise e, w4)
          end
    | (Raise e, w2) =>
        if is_HTTPError e then (Ok (), logs [line_failed e] w2) else (Raise e, w2)
    end.
Proof.
  intros url Hurl. unfold handle, resolve_target_path. unfold_M. fold url.
  rewrite Hurl. cbn [negb]. cbv beta iota.
  change (log (EvStdout PLAIN _) w) with (logs [line_fetching url] w).
  change (joinpath (joinpath (joinpath (joinpath _ _) _) _) _) with (target_of w).
  destruct (fetch_pattern_header url (logs [line_fetching url] w)) as [[content|e] w2].
  - cbv beta iota. destruct (truthy (dict_get options "dry_run")).
    + rewrite !log_logs, logs_logs. done.
    + rewrite log_logs.
      by destruct (save_pattern_header content (target_of w) _) as [[[]|e] w4].
  - destruct (is_HTTPError e); [|done]. done.
Qed.

(** Whatever [handle] does, it leaves the file system a tree. *)
Lemma handle_keeps_tree (options : gmap string pyobj) (w w' : World) (r : result unit) :
  tree_shaped (fs w) → handle options w = (r, w') → tree_shaped (fs w').
Proof.
  intros Htree.
  destruct (truthy (handle_url options (settings w))) eqn:Hurl.
  2:{ rewrite handle_no_url by done. by intros [= <- <-]. }
  rewrite handle_fetches by done.
  destruct (fetch_pattern_header _ _) as [r1 w2] eqn:Hfetch.
  assert (fs w2 = fs w) as Hfs.
  { revert Hfetch. unfold fetch_pattern_header, Httpx.get, Httpx.raise_for_status.
    unfold_M. destruct (handle_url options (settings w)) as [| | |u];
      try (by intros [= <- <-]).
    simpl. destruct (net w u) as [resp|e]; [|by intros [= <- <-]].
    by destruct (Httpx.is_success resp); intros [= <- <-]. }
  destruct r1 as [content|e].
  - destruct (truthy (dict_get options "dry_run")).
    + intros [= <- <-]. simpl. by rewrite Hfs.
    + destruct (save_pattern_header content (target_of w) _) as [r4 w4] eqn:Hsave.
      apply save_keeps_tree in Hsave; [|simpl; by rewrite Hfs].
      by destruct r4 as [[]|e4]; intros [= <- <-].
  - destruct (is_HTTPError e); intros [= <- <-]; simpl; by rewrite Hfs.
Qed.

Lemma fetch_run (u : pystr) (w : World) :
  fetch_pattern_header (PyStr u) w
  = (outcome (fetch_pattern_header (PyStr u)) w, logs [EvGet u] w).
Proof.
  rewrite <- fetch_after. unfold outcome, after.
  by destruct (fetch_pattern_header (PyStr u) w).
Qed.

Lemma fetch_run_logs (u : pystr) (t : list event) (w : World) :
  fetch_pattern_header (PyStr u) (logs t w)
  = (outcome (fetch_pattern_header (PyStr u)) w, logs (t ++ [EvGet u]) w).
Proof. by rewrite fetch_run, fetch_outcome_logs, logs_logs. Qed.

Lemma truthy_str (u : pystr) : u ≠ [] → truthy (PyStr u) = true.
Proof. by destruct u. Qed.

Lemma handle_bad_url (options : gmap string pyobj) (w : World) :
  let url := handle_url options (settings w) in
  truthy url = true → isinstance_str url = false →
  handle options w
  = (Raise (Exn TypeError (lit "Invalid type for url")), logs [line_fetching url] w).
Proof.
  intros url Htrue Hstr. rewrite handle_fetches by done. fold url.
  by destruct url.
Qed.

Lemma handle_fetch_raises (options : gmap string pyobj) (w : World) (u : pystr) (e : exn) :
  handle_url options (settings w) = PyStr u → u ≠ [] →
  outcome (fetch_pattern_header (PyStr u)) w = Raise e →
  handle options w
  = if is_HTTPError e
    then (Ok (), logs [line_fetching (PyStr u); EvGet u; line_failed e] w)
    else (Raise e, logs [line_fetching (PyStr u); EvGet u] w).
Proof.
  intros Hurl Hne Hfetch.
  rewrite handle_fetches by (rewrite Hurl; by apply truthy_str).
  rewrite Hurl, fetch_run_logs, Hfetch.
  destruct (is_HTTPError e); [|done]. by rewrite logs_logs.
Qed.

Lemma handle_dry (options : gmap string pyobj) (w : World) (u content : pystr) :
  handle_url options (settings w) = PyStr u → u ≠ [] →
  outcome (fetch_pattern_header (PyStr u)) w = Ok content →
  truthy (dict_get options "dry_run") = true →
  handle options w
  = (Ok (), logs [line_fetching (PyStr u); EvGet u; line_fetched content; line_dry_run] w).
Proof.
  intros Hurl Hne Hfetch Hdry.
  rewrite handle_fetches by (rewrite Hurl; by apply truthy_str).
  rewrite Hurl, fetch_run_logs, Hfetch, Hdry. by rewrite logs_logs.
Qed.

Lemma handle_saves (options : gmap string pyobj) (w : World) (u content : pystr) :
  handle_url options (settings w) = PyStr u → u ≠ [] →
  outcome (fetch_pattern_header (PyStr u)) w = Ok content →
  truthy (dict_get options "dry_run") = false →
  handle options w
  = match save_pattern_header content (target_of w)
            (logs [line_fetching (PyStr u); EvGet u; line_fetched content] w) with
    | (Ok _, w4) => (Ok (), logs [line_saved (target_of w)] w4)
    | (Raise e, w4) => (Raise e, w4)
    end.
Proof.
  intros Hurl Hne Hfetch Hdry.
  rewrite handle_fetches by (rewrite Hurl; by apply truthy_str).
  rewrite Hurl, fetch_run_logs, Hfetch, Hdry. by rewrite logs_logs.
Qed.

(** What one run of [handle] adds to the trace, in every case: the
    events, with at most one GET and one write among them, and the GET,
    when there is one, to the URL of [handle_url]. *)
Lemma handle_trace (options : gmap string pyobj) (w : World) :
  ∃ t, added w (after (handle options) w) t
       ∧ (count is_get t ≤ 1)%nat ∧ (count is_write t ≤ 1)%nat
       ∧ (∀ u, EvGet u ∈ t → handle_url options (settings w) = PyStr u).
Proof.
  set (url := handle_url options (settings w)).
  destruct (truthy url) eqn:Htrue.
  2:{ exists [line_no_url]. unfold after. rewrite handle_no_url by done.
      split; [done|]. split; [cbn; lia|]. split; [cbn; lia|].
      intros u Hin. apply list_elem_of_singleton in Hin. done. }
  destruct (isinstance_str url) eqn:Hstr.
  2:{ exists [line_fetching url]. unfold after. rewrite handle_bad_url by done.
      split; [done|]. split; [cbn; lia|]. split; [cbn; lia|].
      intros u Hin. apply list_elem_of_singleton in Hin. done. }
  destruct url as [| | |u] eqn:Hurl; try done. subst url.
  assert (u ≠ []) as Hne by (by destruct u).
  assert (∀ t0 u', Forall (λ ev, is_get ev = false) t0 →
            EvGet u' ∈ t0 → PyStr u = PyStr u') as Hnoget.
  { intros t0 u' Hall Hin. rewrite Forall_forall in Hall.
    by specialize (Hall _ Hin). }
  destruct (outcome (fetch_pattern_header (PyStr u)) w) as [content|e] eqn:Hfetch.
  - destruct (truthy (dict_get options "dry_run")) eqn:Hdry.
    + eexists. unfold after. rewrite (handle_dry _ _ _ _ Hurl Hne Hfetch Hdry).
      split; [apply added_logs|]. split; [cbn; lia|]. split; [cbn; lia|].
      intros u' Hin. rewrite !elem_of_cons in Hin.
      destruct Hin as [[=]|[[= ->]|[[=]|[[=]|Hin]]]]; [done|].
      by apply elem_of_nil in Hin.
    + unfold after. rewrite (handle_saves _ _ _ _ Hurl Hne Hfetch Hdry).
      destruct (save_pattern_header content (target_of w) _) as [r w4] eqn:Hsave.
      apply save_frame in Hsave as (_ & dirs & Hdirs & Hcases).
      pose proof (count_mkdirs is_get dirs ltac:(done) Hdirs) as Hg.
      pose proof (count_mkdirs is_write dirs ltac:(done) Hdirs) as Hw.
      assert (∀ u', EvGet u' ∈ dirs → PyStr u = PyStr u') as Hdg.
      { intros u'. apply Hnoget. eapply Forall_impl; [exact Hdirs|].
        by intros []. }
      destruct Hcases as [(e & -> & Hadd) | (b & -> & _ & Hadd & _)].
      * exists ([line_fetching (PyStr u); EvGet u; line_fetched content] ++ dirs).
        split; [|split; [|split]].
        -- unfold added in *. simpl in *. by rewrite Hadd, <- app_assoc.
        -- rewrite count_app, Hg. cbn. lia.
        -- rewrite count_app, Hw. cbn. lia.
        -- intros u' Hin. rewrite elem_of_app, !elem_of_cons in Hin.
           destruct Hin as [[[=]|[[= ->]|[[=]|Hin]]]|Hin]; [done| |by apply Hdg].
           by apply elem_of_nil in Hin.
      * exists ([line_fetching (PyStr u); EvGet u; line_fetched content]
                ++ (dirs ++ [EvWrite (target_of w) b]) ++ [line_saved (target_of w)]).
        split; [|split; [|split]].
        -- unfold added in *. simpl in *. rewrite Hadd.
           by rewrite <- !app_assoc.
        -- rewrite !count_app, Hg. cbn. lia.
        -- rewrite !count_app, Hw. cbn. lia.
        -- intros u' Hin. rewrite !elem_of_app, !elem_of_cons in Hin.
           destruct Hin as [[[=]|[[= ->]|[[=]|Hin]]]|[[Hin|[[=]|Hin]]|[[=]|Hin]]];
             try done; try (by apply elem_of_nil in Hin). by apply Hdg.
  - pose proof (handle_fetch_raises _ _ _ _ Hurl Hne Hfetch) as Hh.
    unfold after. rewrite Hh.
    destruct (is_HTTPError e); eexists;
      (split; [apply added_logs|]); (split; [cbn; lia|]); (split; [cbn; lia|]);
      intros u' Hin; rewrite !elem_of_cons in Hin.
    + destruct Hin as [[=]|[[= ->]|[[=]|Hin]]]; [done|]. by apply elem_of_nil in Hin.
    + destruct Hin as [[=]|[[= ->]|Hin]]; [done|]. by apply elem_of_nil in Hin.
Qed.

End CommandFacts.

(* ===================================================================== *)
(** * More facts about the file system calls and the command *)
(* ===================================================================== *)

Module MoreFacts.
Import Py Posix Command CommandSpec Vocabulary PosixFacts CommandFacts.

(** Path resolution knows two errors. *)
Lemma dir_error_class (f : gmap path node) (p : path) (c : exc_class) :
  dir_error f p = Some c → c = FileNotFoundError ∨ c = NotADirectoryError.
Proof.
  revert c. induction p as [|a q IH]; intros c; simpl; [done|].
  destruct (dir_error f q) as [err|].
  - intros [= <-]. by apply IH.
  - destruct (f !! (a :: q)) as [[|b]|]; intros [= <-]; auto.
Qed.

Lemma os_mkdir_raises (p : path) (w w' : World) (e : exn) :
  os_mkdir p w = (Raise e, w') → is_OSError e = true.
Proof.
  unfold os_mkdir. destruct p as [|a q]; [by intros [= <- <-]|].
  destruct (dir_error (fs w) q) as [err|] eqn:Hq.
  - intros [= <- <-]. by destruct (dir_error_class _ _ _ Hq) as [-> | ->].
  - by destruct (fs w !! (a :: q)); intros [= <- <-].
Qed.

Lemma mkdir_flat_raises (exist_ok : bool) (p : path) (w w' : World) (e : exn) :
  mkdir_flat exist_ok p w = (Raise e, w') → is_OSError e = true.
Proof.
  unfold mkdir_flat. unfold_M.
  destruct (os_mkdir p w) as [[[]|e0] w0] eqn:Hos; [done|].
  apply os_mkdir_raises in Hos. rewrite Hos. unfold is_dir.
  destruct (is_FileNotFoundError e0); [by intros [= <- <-]|].
  by destruct (dir_error (fs w0) p), exist_ok; simpl; intros [= <- <-].
Qed.

Lemma mkdir_parents_raises (exist_ok : bool) (p : path) (w w' : World) (e : exn) :
  mkdir_parents exist_ok p w = (Raise e, w') → is_OSError e = true.
Proof.
  revert exist_ok w w' e.
  induction p as [|a q IH]; intros exist_ok w w' e; simpl; unfold_M.
  { simpl. by destruct exist_ok; simpl; intros [= <- <-]. }
  destruct (os_mkdir (a :: q) w) as [[[]|e0] w0] eqn:Hos; [done|].
  apply os_mkdir_raises in Hos. rewrite Hos. unfold is_dir.
  destruct (is_FileNotFoundError e0).
  - destruct (mkdir_parents true q w0) as [[[]|e1] w1] eqn:Hup.
    + apply mkdir_flat_raises.
    + intros [= <- <-]. by eapply IH.
  - by destruct (dir_error (fs w0) (a :: q)), exist_ok; simpl; intros [= <- <-].
Qed.

(** [save_pattern_header] raises an [OSError], from [mkdir] or from
    opening the file, or the [UnicodeEncodeError] of the encoder. *)
Lemma save_raises (content : pystr) (tp : path) (w w' : World) (e : exn) :
  save_pattern_header content tp w = (Raise e, w') →
  is_OSError e = true ∨ exn_class e = UnicodeEncodeError.
Proof.
  unfold save_pattern_header, Path_mkdir. unfold_M.
  destruct (mkdir_parents true (parent tp) w) as [[[]|e1] w1] eqn:Hmk.
  - unfold Path_write_text, open_w, file_write. unfold_M.
    destruct tp as [|a q]; [intros [= <- <-]; by left|].
    destruct (dir_error (fs w1) q) as [err|] eqn:Hq.
    { intros [= <- <-]. left. by destruct (dir_error_class _ _ _ Hq) as [-> | ->]. }
    destruct (fs w1 !! (a :: q)) as [[|b0]|];
      [intros [= <- <-]; by left| |];
      by destruct (encode_utf8 content); unfold raise; intros [= <- <-]; right.
  - intros [= <- <-]. left. by eapply mkdir_parents_raises.
Qed.

(** ** What [mkdir] makes *)

Lemma chain_length (p k : path) : k ∈ chain p → (length k ≤ length p)%nat.
Proof.
  induction p as [|a q IH]; simpl; [by intros ?%elem_of_nil|].
  rewrite elem_of_app, list_elem_of_singleton. intros [Hin | ->]; [|done].
  specialize (IH Hin). lia.
Qed.

Lemma missing_dirs_cons (f : gmap path node) (a : pystr) (q : path) :
  missing_dirs f (a :: q)
  = missing_dirs f q ++ (if bool_decide (f !! (a :: q) = None) then [a :: q] else []).
Proof. unfold missing_dirs. simpl. by rewrite List.filter_app. Qed.

(** A directory that resolves has nothing missing on its way. *)
Lemma missing_dirs_resolved (f : gmap path node) (p : path) :
  dir_error f p = None → missing_dirs f p = [].
Proof.
  induction p as [|a q IH]; [done|]. simpl. rewrite missing_dirs_cons.
  destruct (dir_error f q) as [err|]; [done|]. rewrite IH by done.
  by destruct (f !! (a :: q)) as [[|b]|].
Qed.

Lemma mkdir_flat_made (p : path) (w w' : World) :
  p ≠ [] → dir_error (fs w) (parent p) = None →
  mkdir_flat true p w = (Ok (), w') →
  trace w' = trace w ++ map EvMkdir (if bool_decide (fs w !! p = None) then [p] else []).
Proof.
  intros Hne Hq. unfold mkdir_flat, os_mkdir, is_dir. unfold_M.
  destruct p as [|a q]; [done|]. simpl in Hq. rewrite Hq.
  destruct (fs w !! (a :: q)) as [n|] eqn:Hl.
  - simpl. rewrite Hq, Hl.
    destruct n; simpl; [|done]. intros [= <-]. by rewrite app_nil_r.
  - by intros [= <-].
Qed.

(** [mkdir(parents=True, exist_ok=True)], when it returns, has made the
    missing directories on the way, outermost first, and has done nothing
    else. *)
Lemma mkdir_parents_made (p : path) (w w' : World) :
  mkdir_parents true p w = (Ok (), w') →
  trace w' = trace w ++ map EvMkdir (missing_dirs (fs w) p).
Proof.
  revert w w'. induction p as [|a q IH]; intros w w'.
  { rewrite (mkdir_parents_existing [] w) by done. intros [= <-].
    by rewrite app_nil_r. }
  intros Hrun. rewrite missing_dirs_cons.
  pose proof Hrun as Hrun0.
  simpl in Hrun. unfold_M_in Hrun. unfold os_mkdir at 1 in Hrun.
  destruct (dir_error (fs w) q) as [err|] eqn:Hq.
  - destruct (decide (err = FileNotFoundError)) as [->|Hother].
    + simpl in Hrun.
      destruct (mkdir_parents true q w) as [[[]|e1] w1] eqn:Hup; [|done].
      pose proof (mkdir_parents_frame _ _ _ _ _ Hup) as [(_ & _ & Hdeep & _) Hdir].
      specialize (Hdir eq_refl).
      specialize (Hdeep (a :: q) ltac:(simpl; lia)).
      apply IH in Hup.
      apply mkdir_flat_made in Hrun; try done.
      rewrite Hrun, Hup, Hdeep. by rewrite map_app, app_assoc.
    + exfalso. destruct err; try done; simpl in Hrun; unfold is_dir in Hrun;
        simpl in Hrun; rewrite Hq in Hrun; simpl in Hrun; done.
  - rewrite (missing_dirs_resolved _ _ Hq).
    destruct (fs w !! (a :: q)) as [n|] eqn:Hl.
    + simpl in Hrun. unfold is_dir in Hrun. simpl in Hrun. rewrite Hq, Hl in Hrun.
      destruct n; simpl in Hrun; [|done]. injection Hrun as <-.
      rewrite bool_decide_eq_false_2 by done. by rewrite app_nil_r.
    + injection Hrun as <-. by rewrite bool_decide_eq_true_2.
Qed.

(** ** Failures in a tree-shaped file system *)



(** No call of [save_pattern_header], whatever comes of it, takes away
    or changes an entry other than the target. *)
Lemma save_keeps_others (content : pystr) (tp : path) (w w' : World) (r : result unit) :
  save_pattern_header content tp w = (r, w') →
  ∀ k n, k ≠ tp → fs w !! k = Some n → fs w' !! k = Some n.
Proof.
  unfold save_pattern_header, Path_mkdir. unfold_M.
  destruct (mkdir_parents true (parent tp) w) as [r1 w1] eqn:Hmk.
  apply mkdir_parents_frame in Hmk as [(_ & _ & _ & Hkeep) _].
  destruct r1 as [[]|e1]; [|intros [= <- <-]; intros; by apply Hkeep].
  intros Hwr k n Hk Hl. apply Hkeep in Hl.
  apply write_text_cases in Hwr
    as [(e & _ & ->) | [(e & _ & _ & _ & _ & ->) | (b & _ & _ & _ & _ & ->)]];
    [done| |]; simpl; by rewrite lookup_insert_ne.
Qed.

Lemma encode_utf8_surrogate (s : pystr) (c : N) :
  c ∈ s → is_surrogate c = true → encode_utf8 s = None.
Proof.
  intros Hin Hsur. induction s as [|c' s IH]; [by apply elem_of_nil in Hin|].
  apply elem_of_cons in Hin as [<- | Hin].
  - simpl. unfold utf8_code_point. unfold is_surrogate in Hsur.
    apply andb_true_iff in Hsur as [Hlo Hhi].
    apply N.leb_le in Hlo. apply N.leb_le in Hhi.
    destruct (N.ltb_spec c 0x80); [lia|].
    destruct (N.ltb_spec c 0x800); [lia|].
    destruct (N.ltb_spec c 0x10000); [|lia].
    destruct (N.leb_spec 0xD800 c); [|lia].
    destruct (N.leb_spec c 0xDFFF); [|lia]. done.
  - simpl. rewrite (IH Hin). by destruct (utf8_code_point c').
Qed.

(** ** A regular file in the way *)




(** ** What looks at the file system only *)

Lemma fs_only_ret {A} (a : A) : fs_only (mret a : M A).
Proof. by intros w1 w2 Hfs. Qed.

Lemma fs_only_raise {A} (e : exn) : fs_only (raise e : M A).
Proof. by intros w1 w2 Hfs. Qed.

Lemma fs_only_bind {A B} (m : M A) (k : A → M B) :
  fs_only m → (∀ a, fs_only (k a)) → fs_only (m ≫= k).
Proof.
  intros Hm Hk w1 w2 Hfs. destruct (Hm w1 w2 Hfs) as [Hout Hafter].
  unfold outcome, after in *. unfold_M.
  destruct (m w1) as [r1 v1], (m w2) as [r2 v2]. simpl in *. subst r2.
  destruct r1 as [a|e]; [|done]. by apply (Hk a v1 v2).
Qed.

Lemma fs_only_try_except {A} (m : M A) (handles : exn → bool) (h : exn → M A) :
  fs_only m → (∀ e, fs_only (h e)) → fs_only (try_except m handles h).
Proof.
  intros Hm Hh w1 w2 Hfs. destruct (Hm w1 w2 Hfs) as [Hout Hafter].
  unfold outcome, after in *. unfold_M.
  destruct (m w1) as [r1 v1], (m w2) as [r2 v2]. simpl in *. subst r2.
  destruct r1 as [a|e]; [done|].
  destruct (handles e); [|done]. by apply (Hh e v1 v2).
Qed.

Lemma fs_only_os_mkdir (p : path) : fs_only (os_mkdir p).
Proof.
  intros w1 w2 Hfs. unfold outcome, after, os_mkdir. rewrite Hfs.
  destruct p as [|a q]; [done|].
  destruct (dir_error (fs w2) q); [done|].
  destruct (fs w2 !! (a :: q)); [done|]. simpl. by rewrite ?Hfs.
Qed.

Lemma fs_only_is_dir (p : path) : fs_only (is_dir p).
Proof. intros w1 w2 Hfs. unfold outcome, after, is_dir. simpl. by rewrite ?Hfs. Qed.

Lemma fs_only_mkdir_handler (exist_ok : bool) (p : path) (e : exn) :
  fs_only (d ← is_dir p; if negb exist_ok || negb d then raise e else mret ()).
Proof.
  apply fs_only_bind; [apply fs_only_is_dir|]. intros d.
  destruct (negb exist_ok || negb d); [apply fs_only_raise | apply fs_only_ret].
Qed.

Lemma fs_only_mkdir_flat (exist_ok : bool) (p : path) : fs_only (mkdir_flat exist_ok p).
Proof.
  apply fs_only_try_except; [apply fs_only_os_mkdir|]. intros e.
  destruct (is_FileNotFoundError e); [apply fs_only_raise|].
  apply fs_only_mkdir_handler.
Qed.

Lemma fs_only_mkdir_parents (exist_ok : bool) (p : path) :
  fs_only (mkdir_parents exist_ok p).
Proof.
  revert exist_ok. induction p as [|a q IH]; intros exist_ok; simpl.
  - apply fs_only_try_except; [apply fs_only_os_mkdir|]. intros e.
    destruct (is_FileNotFoundError e); [apply fs_only_raise|].
    apply fs_only_mkdir_handler.
  - apply fs_only_try_except; [apply fs_only_os_mkdir|]. intros e.
    destruct (is_FileNotFoundError e); [|apply fs_only_mkdir_handler].
    apply fs_only_bind; [apply IH|]. intros _. apply fs_only_mkdir_flat.
Qed.

Lemma fs_only_write_text (p : path) (data : pystr) : fs_only (Path_write_text p data).
Proof.
  apply fs_only_bind.
  - intros w1 w2 Hfs. unfold outcome, after, open_w. rewrite Hfs.
    destruct p as [|a q]; [done|].
    destruct (dir_error (fs w2) q); [done|].
    destruct (fs w2 !! (a :: q)) as [[|b]|]; simpl; by rewrite ?Hfs.
  - intros _. destruct (encode_utf8 data) as [b|]; [|apply fs_only_raise].
    intros w1 w2 Hfs. unfold outcome, after, file_write. simpl. by rewrite ?Hfs.
Qed.

Lemma fs_only_save (content : pystr) (tp : path) :
  fs_only (save_pattern_header content tp).
Proof.
  apply fs_only_bind; [apply fs_only_mkdir_parents|].
  intros _. apply fs_only_write_text.
Qed.

Lemma run_eq {A} (m : M A) (w : World) : m w = (outcome m w, after m w).
Proof. unfold outcome, after. by destruct (m w). Qed.

Lemma run_outcome {A} (m : M A) (w : World) (r : result A) :
  outcome m w = r → m w = (r, after m w).
Proof. intros <-. apply run_eq. Qed.

End MoreFacts.

(* ===================================================================== *)
(** * Runs of the command in the concrete world *)
(* ===================================================================== *)

Module Runs.
Import Py Posix Command CommandSpec Examples.

Example utf8_two_octets : encode_utf8 [0xE9] = Some [0xC3; 0xA9].
Proof. reflexivity. Qed.

Example utf8_three_octets : encode_utf8 [0x20AC] = Some [0xE2; 0x82; 0xAC].
Proof. reflexivity. Qed.

Example utf8_four_octets : encode_utf8 [0x1F600] = Some [0xF0; 0x9F; 0x98; 0x80].
Proof. reflexivity. Qed.

Example utf8_surrogate : encode_utf8 [0x41; 0xD800] = None.
Proof. reflexivity. Qed.

Example target_in_checkout :
  path_str (target_of example_world)
  = lit ("/srv/pdf_checker_project/pdf_checker_app/pdf_checker_app_templates"
         ++ "/pdf_checker_app/includes/pattern_header.html").
Proof. vm_compute. reflexivity. Qed.

Example example_fs_is_tree : tree_shaped example_fs.
Proof.
  unfold example_fs, app_dir.
  repeat (apply PosixFacts.tree_shaped_insert;
          [| vm_compute; reflexivity | vm_compute; discriminate]).
  intros c q [n Hn]. by rewrite lookup_empty in Hn.
Qed.

Example blocked_world_is_tree : tree_shaped (fs blocked_world).
Proof.
  apply PosixFacts.tree_shaped_insert;
    [apply example_fs_is_tree | vm_compute; reflexivity | vm_compute; discriminate].
Qed.

Example run_saves :
  outcome (handle no_options) example_world = Ok ()
  ∧ fs (after (handle no_options) example_world) !! target_of example_world
    = Some (File header_html)
  ∧ List.filter is_mkdir (trace (after (handle no_options) example_world))
    = [ EvMkdir ([lit "pdf_checker_app_templates"] ++ app_dir);
        EvMkdir ([lit "pdf_checker_app"; lit "pdf_checker_app_templates"] ++ app_dir);
        EvMkdir ([lit "includes"; lit "pdf_checker_app"; lit "pdf_checker_app_templates"]
                 ++ app_dir) ].
Proof. split; [|split]; vm_compute; reflexivity. Qed.

Example run_blocked :
  outcome (handle no_options) blocked_world
  = Raise (os_error NotADirectoryError (parent (target_of blocked_world)))
  ∧ fs (after (handle no_options) blocked_world) !! target_of blocked_world = None
  ∧ count is_write (trace (after (handle no_options) blocked_world)) = 0%nat.
Proof. split; [|split]; vm_compute; reflexivity. Qed.

End Runs.

(* ===================================================================== *)
(** * Properties of the update_pattern_header command *)
(* ===================================================================== *)

Module CommandProperties.
Import Py Posix Command CommandSpec PosixFacts CommandFacts MoreFacts Examples.

(** C1.  When the fetch of the command's URL succeeds and [--dry-run] is
    not set, the file at the resolved target path holds the UTF-8
    encoding of the fetched text once [handle] has returned; and [handle]
    does return whenever no regular file stands in place of one of the
    target's parent directories, the target is not a directory and the
    text has a UTF-8 encoding. *)
Theorem handle_saves_fetched_text
    (options : gmap string pyobj) (w : World) (u content : pystr) :
  handle_url options (settings w) = PyStr u → u ≠ [] →
  outcome (fetch_pattern_header (PyStr u)) w = Ok content →
  truthy (dict_get options "dry_run") = false →
  (∀ w', handle options w = (Ok (), w') →
     ∃ b, encode_utf8 content = Some b ∧ fs w' !! target_of w = Some (File b))
  ∧ (∀ b, encode_utf8 content = Some b →
       clear_way (fs w) (parent (target_of w)) = true →
       not_a_dir (fs w) (target_of w) = true →
       ∃ w', handle options w = (Ok (), w')
             ∧ fs w' !! target_of w = Some (File b)).
Proof.
  intros Hurl Hne Hfetch Hdry.
  rewrite (handle_saves _ _ _ _ Hurl Hne Hfetch Hdry).
  set (w3 := logs _ w).
  assert (∀ w', match save_pattern_header content (target_of w) w3 with
                | (Ok _, w4) => (Ok (), logs [line_saved (target_of w)] w4)
                | (Raise e, w4) => (Raise e, w4)
                end = (Ok (), w') →
            ∃ b, encode_utf8 content = Some b
                 ∧ fs w' !! target_of w = Some (File b)) as Hret.
  { intros w'.
    destruct (save_pattern_header content (target_of w) w3) as [r w4] eqn:Hsave.
    apply save_frame in Hsave
      as (_ & dirs & _ & [(e & -> & _) | (b & -> & Henc & _ & Htp & _)]); [done|].
    intros [= <-]. eauto. }
  split; [exact Hret|].
  intros b Henc Hclear Hnd.
  destruct (save_total content (target_of w) b w3) as [w4 Hsave]; try done.
  specialize (Hret (logs [line_saved (target_of w)] w4)).
  rewrite Hsave in *. destruct (Hret eq_refl) as (b' & Hb' & Hfile).
  eexists. split; [done|]. congruence.
Qed.

Lemma handle_saves_fetched_text_witness :
  ∃ w', handle no_options example_world = (Ok (), w')
        ∧ fs w' !! target_of example_world = Some (File header_html).
Proof.
  destruct (handle_saves_fetched_text no_options example_world header_url header_html)
    as [_ Hreturns].
  - vm_compute. reflexivity.
  - vm_compute. discriminate.
  - vm_compute. reflexivity.
  - vm_compute. reflexivity.
  - apply Hreturns; vm_compute; reflexivity.
Defined.

(** C2.  When the fetch raises an [httpx.HTTPError], [handle] catches it,
    prints the failure as an error line and returns; an exception of any
    other class goes through [handle] uncaught.  Either way
    [save_pattern_header] is not reached: no directory is made, no file
    is written and the file system is as it was. *)
Theorem handle_fetch_error
    (options : gmap string pyobj) (w : World) (u : pystr) (e : exn) :
  handle_url options (settings w) = PyStr u → u ≠ [] →
  outcome (fetch_pattern_header (PyStr u)) w = Raise e →
  (is_HTTPError e = true →
     handle options w
     = (Ok (), logs [line_fetching (PyStr u); EvGet u; line_failed e] w))
  ∧ (is_HTTPError e = false → outcome (handle options) w = Raise e)
  ∧ fs (after (handle options) w) = fs w
  ∧ (∀ t, added w (after (handle options) w) t →
       Forall (λ ev, is_write ev = false ∧ is_mkdir ev = false) t).
Proof.
  intros Hurl Hne Hfetch.
  pose proof (handle_fetch_raises _ _ _ _ Hurl Hne Hfetch) as Hh.
  unfold outcome, after. rewrite Hh.
  split; [|split; [|split]].
  - by intros ->.
  - by intros ->.
  - by destruct (is_HTTPError e).
  - intros t Hadd. destruct (is_HTTPError e).
    + rewrite (added_inj _ _ _ _ Hadd (added_logs _ _)). by repeat constructor.
    + rewrite (added_inj _ _ _ _ Hadd (added_logs _ _)). by repeat constructor.
Qed.

Lemma handle_fetch_error_witness :
  outcome (handle (url_options (lit "https://example.org/down"))) example_world = Ok ()
  ∧ outcome (handle (url_options bad_url)) example_world = Raise invalid_port
  ∧ fs (after (handle (url_options bad_url)) example_world) = fs example_world.
Proof.
  split.
  - destruct (handle_fetch_error (url_options (lit "https://example.org/down"))
                example_world (lit "https://example.org/down")
                (Exn RequestError (lit "connection refused")))
      as (Hcaught & _).
    + vm_compute. reflexivity.
    + vm_compute. discriminate.
    + vm_compute. reflexivity.
    + unfold outcome. rewrite Hcaught; reflexivity.
  - destruct (handle_fetch_error (url_options bad_url) example_world bad_url
                invalid_port)
      as (_ & Hthrough & Hfs & _).
    + vm_compute. reflexivity.
    + vm_compute. discriminate.
    + vm_compute. reflexivity.
    + split; [apply Hthrough; reflexivity | exact Hfs].
Defined.

(** C3.  For a URL the network answers, [fetch_pattern_header] returns a
    text exactly when the response has a success status, and the text is
    then the response body; for every other status it raises the
    [HTTPStatusError] of [raise_for_status] and returns nothing. *)
Theorem fetch_returns_iff_success (u : pystr) (w : World) (r : Response) :
  net w u = Responded r →
  (∀ content, outcome (fetch_pattern_header (PyStr u)) w = Ok content
              ↔ Httpx.is_success r = true ∧ content = text r)
  ∧ (Httpx.is_success r = false →
       ∃ e, outcome (fetch_pattern_header (PyStr u)) w = Raise e
            ∧ exn_class e = HTTPStatusError).
Proof.
  intros Hnet. unfold outcome. rewrite (fetch_responded _ _ _ Hnet). simpl.
  destruct (Httpx.is_success r); split.
  - intros content. split; [by intros [= <-] | by intros [_ ->]].
  - done.
  - intros content. split; [done | by intros [? _]].
  - intros _. eauto.
Qed.

Lemma fetch_returns_iff_success_witness :
  outcome (fetch_pattern_header (PyStr header_url)) example_world = Ok header_html
  ∧ ∃ e, outcome (fetch_pattern_header (PyStr gone_url)) example_world = Raise e
         ∧ exn_class e = HTTPStatusError.
Proof.
  split.
  - apply (fetch_returns_iff_success header_url example_world (mkResponse 200 header_html)).
    + vm_compute. reflexivity.
    + split; reflexivity.
  - apply (fetch_returns_iff_success gone_url example_world
             (mkResponse 404 (lit "Not Found"))).
    + vm_compute. reflexivity.
    + reflexivity.
Defined.
(** C4.  One run of [handle] makes at most one GET request and at most
    one file write; when the fetch succeeds, [--dry-run] is not set and
    [handle] returns, it has made exactly one of each. *)
Theorem handle_one_get_one_write (options : gmap string pyobj) (w : World) :
  ∃ t, added w (after (handle options) w) t
       ∧ (count is_get t ≤ 1)%nat ∧ (count is_write t ≤ 1)%nat
       ∧ (∀ u content,
            handle_url options (settings w) = PyStr u → u ≠ [] →
            outcome (fetch_pattern_header (PyStr u)) w = Ok content →
            truthy (dict_get options "dry_run") = false →
            outcome (handle options) w = Ok () →
            count is_get t = 1%nat ∧ count is_write t = 1%nat).
Proof.
  destruct (handle_trace options w) as (t & Hadd & Hget & Hwrite & _).
  exists t. do 3 (split; [done|]).
  intros u content Hurl Hne Hfetch Hdry Hok.
  unfold outcome, after in *.
  rewrite (handle_saves _ _ _ _ Hurl Hne Hfetch Hdry) in Hadd, Hok.
  destruct (save_pattern_header content (target_of w) _) as [r w4] eqn:Hsave.
  apply save_frame in Hsave
    as (_ & dirs & Hdirs & [(e & -> & _) | (b & -> & _ & Hadd4 & _)]); [done|].
  assert (t = [line_fetching (PyStr u); EvGet u; line_fetched content]
              ++ (dirs ++ [EvWrite (target_of w) b]) ++ [line_saved (target_of w)])
    as ->.
  { eapply added_inj; [exact Hadd|]. unfold added in *. simpl in *.
    rewrite Hadd4. by rewrite <- !app_assoc. }
  rewrite !count_app.
  rewrite (count_mkdirs is_get dirs ltac:(done) Hdirs).
  rewrite (count_mkdirs is_write dirs ltac:(done) Hdirs).
  split; reflexivity.
Qed.

(** C8.  With [--dry-run] set and the fetch successful, [handle] prints
    the warning [Dry run - not saving] last and returns; it has not
    reached [save_pattern_header], and the file system is as it was. *)
Theorem handle_dry_run
    (options : gmap string pyobj) (w : World) (u content : pystr) :
  truthy (dict_get options "dry_run") = true →
  handle_url options (settings w) = PyStr u → u ≠ [] →
  outcome (fetch_pattern_header (PyStr u)) w = Ok content →
  handle options w
  = (Ok (), logs [line_fetching (PyStr u); EvGet u; line_fetched content;
                  EvStdout WARNING (lit "Dry run - not saving")] w)
  ∧ fs (after (handle options) w) = fs w.
Proof.
  intros Hdry Hurl Hne Hfetch. unfold after.
  rewrite (handle_dry _ _ _ _ Hurl Hne Hfetch Hdry). done.
Qed.

Lemma handle_dry_run_witness :
  handle dry_run_options example_world
  = (Ok (), logs [line_fetching (PyStr header_url); EvGet header_url;
                  line_fetched header_html;
                  EvStdout WARNING (lit "Dry run - not saving")] example_world)
  ∧ fs (after (handle dry_run_options) example_world) = fs example_world.
Proof.
  apply (handle_dry_run dry_run_options example_world header_url header_html).
  - vm_compute. reflexivity.
  - vm_compute. reflexivity.
  - vm_compute. discriminate.
  - vm_compute. reflexivity.
Defined.

Lemma handle_one_get_one_write_witness :
  ∃ t, added example_world (after (handle no_options) example_world) t
       ∧ count is_get t = 1%nat ∧ count is_write t = 1%nat.
Proof.
  destruct (handle_one_get_one_write no_options example_world)
    as (t & Hadd & _ & _ & Hexact).
  exists t. split; [exact Hadd|].
  apply (Hexact header_url header_html).
  - vm_compute. reflexivity.
  - vm_compute. discriminate.
  - vm_compute. reflexivity.
  - vm_compute. reflexivity.
  - vm_compute. reflexivity.
Defined.






End CommandProperties.

(* ===================================================================== *)
(** * Properties of manage.py, admin.py and the report view *)
(* ===================================================================== *)

Module ManageProperties.
Import Manage.

(** C7.  [main] sets [DJANGO_SETTINGS_MODULE] to [config.settings] only
    when the variable has no value: an environment that has one is left
    as it is, and Django's entry point is called with [sys.argv] in the
    environment [main] leaves. *)
Theorem main_settings_module {R : Type}
    (django : option (list string → gmap string string → R))
    (argv : list string) (environ : gmap string string) :
  (∀ v, environ !! "DJANGO_SETTINGS_MODULE" = Some v →
     fst (main django argv environ) = environ)
  ∧ (environ !! "DJANGO_SETTINGS_MODULE" = None →
       fst (main django argv environ)
       = <["DJANGO_SETTINGS_MODULE" := "config.settings"]> environ)
  ∧ (∀ execute_from_command_line, django = Some execute_from_command_line →
       snd (main django argv environ)
       = Executed (execute_from_command_line argv (fst (main django argv environ)))).
Proof.
  unfold main, environ_setdefault. split; [|split].
  - intros v Hset. rewrite Hset. by destruct django.
  - intros Hunset. rewrite Hunset. by destruct django.
  - by intros exec ->.
Qed.

Lemma main_settings_module_witness :
  main (Some (λ argv environ, (argv, environ !! "DJANGO_SETTINGS_MODULE")))
       ["manage.py"; "update_pattern_header"]
       {[ "DJANGO_SETTINGS_MODULE" := "config.settings_ci" ]}
  = ({[ "DJANGO_SETTINGS_MODULE" := "config.settings_ci" ]},
     Executed (["manage.py"; "update_pattern_header"], Some "config.settings_ci")).
Proof.
  pose (exec := λ (argv : list string) (environ : gmap string string),
                  (argv, environ !! "DJANGO_SETTINGS_MODULE")).
  destruct (main_settings_module (Some exec) ["manage.py"; "update_pattern_header"]
              {[ "DJANGO_SETTINGS_MODULE" := "config.settings_ci" ]})
    as (Hkept & _ & Hcalls).
  specialize (Hkept "config.settings_ci" ltac:(vm_compute; reflexivity)).
  specialize (Hcalls exec eq_refl).
  rewrite Hkept in Hcalls.
  fold exec. rewrite (surjective_pairing (main _ _ _)), Hkept, Hcalls.
  reflexivity.
Defined.

End ManageProperties.

Module AdminProperties.
Import Admin.

(** What importing [admin.py] does to a site, spelled out. *)
Lemma admin_py_eq (site : registry) :
  admin_py site =
    if bool_decide (site !! "PDFDocument" = None
                    ∧ site !! "VeraPDFResult" = None
                    ∧ site !! "OpenRouterSummary" = None)
    then Some (<["OpenRouterSummary" := OpenRouterSummaryAdmin]>
                 (<["VeraPDFResult" := VeraPDFResultAdmin]>
                    (<["PDFDocument" := PDFDocumentAdmin]> site)))
    else None.
Proof.
  unfold admin_py, register.
  destruct (site !! "PDFDocument") eqn:H1.
  { rewrite bool_decide_eq_false_2; [done|]. by intros [? _]. }
  cbn [mbind option_bind]. rewrite lookup_insert_ne by done.
  destruct (site !! "VeraPDFResult") eqn:H2.
  { rewrite bool_decide_eq_false_2; [done|]. by intros (_ & ? & _). }
  cbn [mbind option_bind]. rewrite !lookup_insert_ne by done.
  destruct (site !! "OpenRouterSummary") eqn:H3.
  { rewrite bool_decide_eq_false_2; [done|]. by intros (_ & _ & ?). }
  by rewrite bool_decide_eq_true_2.
Qed.

(** C6.  Importing [admin.py] registers exactly [PDFDocument],
    [VeraPDFResult] and [OpenRouterSummary]: the import goes through
    when none of the three has an admin class yet; the site then has
    those three models more, each with its own admin class, three
    different classes, and the registration of every other model is as
    it was. *)
Theorem admin_py_registers_three (site : registry) :
  (is_Some (admin_py site) ↔
     site !! "PDFDocument" = None ∧ site !! "VeraPDFResult" = None
     ∧ site !! "OpenRouterSummary" = None)
  ∧ (∀ site', admin_py site = Some site' →
       dom site' = dom site ∪ {[ "PDFDocument"; "VeraPDFResult"; "OpenRouterSummary" ]}
       ∧ site' !! "PDFDocument" = Some PDFDocumentAdmin
       ∧ site' !! "VeraPDFResult" = Some VeraPDFResultAdmin
       ∧ site' !! "OpenRouterSummary" = Some OpenRouterSummaryAdmin
       ∧ (∀ model, model ≠ "PDFDocument" → model ≠ "VeraPDFResult" →
            model ≠ "OpenRouterSummary" → site' !! model = site !! model))
  ∧ PDFDocumentAdmin ≠ VeraPDFResultAdmin
  ∧ PDFDocumentAdmin ≠ OpenRouterSummaryAdmin
  ∧ VeraPDFResultAdmin ≠ OpenRouterSummaryAdmin.
Proof.
  rewrite admin_py_eq. split; [|split; [|done]].
  - case_bool_decide as Hfree; (split; [|done]).
    + done.
    + by intros [? ?].
  - intros site'. case_bool_decide as Hfree; [|done]. intros [= <-].
    split.
    { rewrite !dom_insert_L. apply set_eq. intros model.
      rewrite !elem_of_union, !elem_of_singleton. tauto. }
    split; [by simplify_map_eq|].
    split; [by simplify_map_eq|].
    split; [by simplify_map_eq|].
    intros model H1 H2 H3. by rewrite !lookup_insert_ne.
Qed.

Lemma admin_py_registers_three_witness :
  ∃ site', admin_py ∅ = Some site'
    ∧ dom site' = {[ "PDFDocument"; "VeraPDFResult"; "OpenRouterSummary" ]}.
Proof.
  destruct (admin_py_registers_three ∅) as ((_ & Hruns) & Hsite & _).
  destruct Hruns as [site' Hrun]; [by rewrite !lookup_empty|].
  exists site'. split; [exact Hrun|].
  destruct (Hsite site' Hrun) as (Hdom & _).
  rewrite Hdom, dom_empty_L. apply (left_id_L ∅ (∪)).
Defined.

End AdminProperties.

Module ReportProperties.
Import Report Examples.
Local Open Scope string_scope.

Lemma is_uuid_example : is_uuid "123e4567-e89b-42d3-a456-426614174000" = true.
Proof. reflexivity. Qed.

Lemma is_uuid_upper_case : is_uuid "123E4567-E89B-42D3-A456-426614174000" = false.
Proof. reflexivity. Qed.

Lemma is_uuid_too_long : is_uuid "123e4567-e89b-42d3-a456-4266141740000" = false.
Proof. reflexivity. Qed.

(** The modelled view, read back, for a report page that shows the file
    name: a UUID segment that is the key of a [PDFDocument] gets status
    200 and a body containing that document's [original_filename]; a UUID
    segment that is the key of no document gets 404; and so does a
    segment that is no UUID.  The view, the route and the template
    themselves are not among the sources. *)
Theorem pdf_report_url_status
    (render : PDFDocument → string) (db : gmap string PDFDocument) (segment : string) :
  (∀ document, contains (original_filename document) (render document)) →
  (∀ document, is_uuid segment = true → db !! segment = Some document →
     status (pdf_report_url render db segment) = 200%Z
     ∧ contains (original_filename document)
                (content (pdf_report_url render db segment)))
  ∧ (is_uuid segment = true → db !! segment = None →
       status (pdf_report_url render db segment) = 404%Z)
  ∧ (is_uuid segment = false →
       status (pdf_report_url render db segment) = 404%Z).
Proof.
  intros Hrender. unfold pdf_report_url, pdf_report. split; [|split].
  - intros document -> ->. simpl. split; [done|apply Hrender].
  - by intros -> ->.
  - by intros ->.
Qed.

(** The three methods of [PDFReportTest] pass against that view, for the
    UUIDs [uuid4()] can give (the second one being a new one). *)
Lemma test_case_passes (render : PDFDocument → string) (test_uuid invalid_uuid : string) :
  (∀ document, contains (original_filename document) (render document)) →
  is_uuid test_uuid = true → is_uuid invalid_uuid = true →
  invalid_uuid ≠ test_uuid →
  test_pdf_report_url_with_valid_uuid render test_uuid
  ∧ test_pdf_report_url_with_invalid_uuid render test_uuid invalid_uuid
  ∧ test_pdf_report_url_with_malformed_uuid render test_uuid.
Proof.
  intros Hrender Htest Hinvalid Hnew.
  unfold test_pdf_report_url_with_valid_uuid, test_pdf_report_url_with_invalid_uuid,
    test_pdf_report_url_with_malformed_uuid, pdf_report_url, pdf_report,
    setUp, objects_create.
  cbn [id setUp_document]. rewrite Htest, Hinvalid.
  rewrite lookup_insert_eq, lookup_insert_ne by done. rewrite lookup_empty.
  split; [|done]. split; [done|].
  apply (Hrender (setUp_document test_uuid)).
Qed.

Lemma pdf_report_url_status_witness :
  (status (pdf_report_url heading_page test_db "123e4567-e89b-42d3-a456-426614174000")
   = 200%Z
   ∧ contains "test.pdf"
       (content (pdf_report_url heading_page test_db
                   "123e4567-e89b-42d3-a456-426614174000")))
  ∧ status (pdf_report_url heading_page test_db "00000000-0000-4000-8000-000000000000")
    = 404%Z
  ∧ status (pdf_report_url heading_page test_db "not-a-uuid") = 404%Z.
Proof.
  assert (∀ document, contains (original_filename document) (heading_page document))
    as Hrender.
  { intros document. exists "<h1>", "</h1>". reflexivity. }
  split; [|split].
  - destruct (pdf_report_url_status heading_page test_db
                "123e4567-e89b-42d3-a456-426614174000" Hrender) as (Hfound & _).
    apply (Hfound (setUp_document "123e4567-e89b-42d3-a456-426614174000")).
    + reflexivity.
    + vm_compute. reflexivity.
  - destruct (pdf_report_url_status heading_page test_db
                "00000000-0000-4000-8000-000000000000" Hrender) as (_ & Hmissing & _).
    apply Hmissing.
    + reflexivity.
    + vm_compute. reflexivity.
  - destruct (pdf_report_url_status heading_page test_db "not-a-uuid" Hrender)
      as (_ & _ & Hmalformed).
    apply Hmalformed. reflexivity.
Defined.

End ReportProperties.

(* ===================================================================== *)
(** * Further properties of [save_pattern_header] *)
(* ===================================================================== *)

Module SaveProperties.
Import Py Posix Command CommandSpec Vocabulary PosixFacts CommandFacts MoreFacts Examples.

(** X1.  A call of [save_pattern_header] that returns has made exactly
    the directories that were missing on the way to the target,
    outermost first, then written the encoded content to the target, and
    has done nothing else. *)
Theorem save_makes_missing_dirs (content : pystr) (target_path : path) (w w' : World) :
  save_pattern_header content target_path w = (Ok (), w') →
  ∃ b, encode_utf8 content = Some b
       ∧ trace w' = trace w
                    ++ map EvMkdir (missing_dirs (fs w) (parent target_path))
                    ++ [EvWrite target_path b].
Proof.
  unfold save_pattern_header, Path_mkdir. unfold_M.
  destruct (mkdir_parents true (parent target_path) w) as [[[]|e1] w1] eqn:Hmk; [|done].
  apply mkdir_parents_made in Hmk. intros Hwr.
  apply write_text_cases in Hwr
    as [(e & ? & _) | [(e & ? & _) | (b & _ & Henc & _ & _ & ->)]]; try done.
  exists b. split; [done|]. simpl. rewrite Hmk. by rewrite <- app_assoc.
Qed.

Lemma save_makes_missing_dirs_witness :
  trace (after (save_pattern_header header_html (target_of example_world)) example_world)
  = [ EvMkdir ([lit "pdf_checker_app_templates"] ++ app_dir);
      EvMkdir ([lit "pdf_checker_app"; lit "pdf_checker_app_templates"] ++ app_dir);
      EvMkdir ([lit "includes"; lit "pdf_checker_app"; lit "pdf_checker_app_templates"]
               ++ app_dir);
      EvWrite (target_of example_world) header_html ].
Proof.
  destruct (save_makes_missing_dirs header_html (target_of example_world) example_world
              (after (save_pattern_header header_html (target_of example_world))
                 example_world))
    as (b & Henc & Htrace).
  - apply run_outcome. vm_compute. reflexivity.
  - rewrite Htrace. vm_compute in Henc. injection Henc as <-.
    vm_compute. reflexivity.
Defined.

(** X2.  When the content holds a surrogate code point, which UTF-8
    cannot encode, and the file can be opened, [save_pattern_header]
    raises [UnicodeEncodeError] after the file was opened for writing:
    the target is left empty, whatever it held before. *)
Theorem save_unencodable_empties_target (content : pystr) (target_path : path) (w : World) :
  target_path ≠ [] →
  clear_way (fs w) (parent target_path) = true →
  not_a_dir (fs w) target_path = true →
  (∃ c, c ∈ content ∧ is_surrogate c = true) →
  ∃ e w', save_pattern_header content target_path w = (Raise e, w')
          ∧ exn_class e = UnicodeEncodeError
          ∧ fs w' !! target_path = Some (File []).
Proof.
  intros Hne Hclear Hnd (c & Hin & Hsur).
  pose proof (encode_utf8_surrogate _ _ Hin Hsur) as Henc.
  destruct (mkdir_parents_clear _ _ Hclear) as [w1 Hmk].
  pose proof (mkdir_parents_frame _ _ _ _ _ Hmk) as [(_ & _ & Hdeep & _) Hdir].
  specialize (Hdir eq_refl).
  unfold save_pattern_header, Path_mkdir. unfold_M. rewrite Hmk.
  unfold Path_write_text, open_w. unfold_M.
  destruct target_path as [|a q]; [done|]. simpl in Hdir. rewrite Hdir.
  specialize (Hdeep (a :: q) ltac:(simpl; lia)).
  unfold not_a_dir in Hnd. rewrite Hdeep, Henc. unfold raise.
  destruct (fs w !! (a :: q)) as [[|b0]|]; [done| |];
    eexists _, _; (split; [done|]); (split; [done|]); simpl; apply lookup_insert_eq.
Qed.

Lemma save_unencodable_empties_target_witness :
  fs installed_world !! target_of installed_world = Some (File old_header)
  ∧ ∃ e w', save_pattern_header broken_text (target_of installed_world) installed_world
            = (Raise e, w')
          ∧ exn_class e = UnicodeEncodeError
          ∧ fs w' !! target_of installed_world = Some (File []).
Proof.
  split; [vm_compute; reflexivity|].
  apply (save_unencodable_empties_target broken_text (target_of installed_world)
           installed_world).
  - vm_compute. discriminate.
  - vm_compute. reflexivity.
  - vm_compute. reflexivity.
  - exists 0xD83D. split; [|reflexivity].
    unfold broken_text. rewrite !elem_of_app, list_elem_of_singleton. auto.
Defined.



End SaveProperties.

(* ===================================================================== *)
(** * Further properties of [handle] and [fetch_pattern_header] *)
(* ===================================================================== *)

Module HandleFacts.
Import Py Posix Command CommandSpec Vocabulary PosixFacts CommandFacts MoreFacts.

Lemma handle_cases (options : gmap string pyobj) (w : World) :
  handle_case options w (outcome (handle options) w) (after (handle options) w).
Proof.
  unfold outcome, after.
  destruct (truthy (handle_url options (settings w))) eqn:Htrue.
  2:{ rewrite handle_no_url by done. by constructor. }
  destruct (isinstance_str (handle_url options (settings w))) eqn:Hstr.
  2:{ rewrite handle_bad_url by done. by constructor. }
  destruct (handle_url options (settings w)) as [| | |u] eqn:Hurl; try done.
  assert (u ≠ []) as Hne by (by destruct u).
  destruct (outcome (fetch_pattern_header (PyStr u)) w) as [content|e] eqn:Hfetch.
  - destruct (truthy (dict_get options "dry_run")) eqn:Hdry.
    + rewrite (handle_dry _ _ _ _ Hurl Hne Hfetch Hdry). by econstructor.
    + rewrite (handle_saves _ _ _ _ Hurl Hne Hfetch Hdry).
      destruct (save_pattern_header content (target_of w) _) as [[[]|e] w4] eqn:Hsave.
      * by eapply case_saved.
      * by eapply case_save_failed.
  - rewrite (handle_fetch_raises _ _ _ _ Hurl Hne Hfetch).
    destruct (is_HTTPError e) eqn:Hhttp.
    + by eapply case_caught.
    + by eapply case_uncaught.
Qed.

Lemma oserror_not_http (e : exn) : is_OSError e = true → is_HTTPError e = false.
Proof. unfold is_OSError, is_HTTPError. by destruct (exn_class e). Qed.

(** The answer of [fetch_pattern_header] is the network's. *)
Lemma fetch_outcome_net (url : pyobj) (w1 w : World) :
  net w1 = net w →
  outcome (fetch_pattern_header url) w1 = outcome (fetch_pattern_header url) w.
Proof.
  intros Hnet. unfold outcome, fetch_pattern_header, Httpx.get, Httpx.raise_for_status.
  unfold_M. destruct url as [| | |u]; try done. rewrite Hnet.
  destruct (net w u) as [r|e]; [|done]. by destruct (Httpx.is_success r).
Qed.

(** Saving over what a save has left: the file system does not change. *)
Lemma save_on_saved (content : pystr) (tp : path) (b : bytes) (w : World) :
  tp ≠ [] → dir_error (fs w) (parent tp) = None →
  fs w !! tp = Some (File b) → encode_utf8 content = Some b →
  ∃ w2, save_pattern_header content tp w = (Ok (), w2) ∧ fs w2 = fs w.
Proof.
  intros Hne Hdir Htp Henc.
  unfold save_pattern_header, Path_mkdir. unfold_M.
  rewrite (mkdir_parents_existing _ _ Hdir).
  rewrite (write_text_ok tp content b w); try done.
  - eexists. split; [done|]. simpl. by apply insert_id.
  - unfold not_a_dir. by rewrite Htp.
Qed.

(** A run of [handle] in a world that a save of the same content has
    left (be it that the save returned or raised): the file system stays
    as that save left it. *)
Lemma handle_after_save (options : gmap string pyobj) (w w3 w4 wf : World)
    (u content : pystr) (r : result unit) :
  handle_url options (settings w) = PyStr u → u ≠ [] →
  outcome (fetch_pattern_header (PyStr u)) w = Ok content →
  truthy (dict_get options "dry_run") = false →
  fs w3 = fs w → same_env w w3 →
  save_pattern_header content (target_of w) w3 = (r, w4) →
  settings wf = settings w4 → module_file wf = module_file w4 → net wf = net w4 →
  fs wf = fs w4 →
  fs (after (handle options) wf) = fs w4.
Proof.
  intros Hurl Hne Hfetch Hdry Hfs3 (Hs3 & Hm3 & Hn3) Hsave Hsf Hmf Hnf Hfsf.
  pose proof Hsave as Hframe.
  apply save_frame in Hframe as ((Hset & Hmod & Hnet) & _).
  assert (target_of wf = target_of w) as Htarget.
  { unfold target_of. by rewrite Hmf, Hmod, Hm3. }
  unfold after.
  rewrite (handle_saves options wf u content); try done.
  - rewrite Htarget.
    set (wf3 := logs [line_fetching (PyStr u); EvGet u; line_fetched content] wf).
    destruct (fs_only_save content (target_of w) wf3 w4) as [Hout Hafter];
      [done|].
    destruct (save_rerun _ _ _ _ _ Hsave) as (r2 & w5 & Hagain & Hfs5 & _).
    unfold outcome, after in Hout, Hafter. rewrite Hagain in Hout, Hafter.
    simpl in Hout, Hafter.
    destruct (save_pattern_header content (target_of w) wf3) as [rf wf5].
    simpl in Hout, Hafter. subst rf.
    destruct r2 as [[]|e2]; simpl; congruence.
  - by rewrite Hsf, Hset, Hs3.
  - rewrite <- Hfetch. apply fetch_outcome_net. by rewrite Hnf, Hnet, Hn3.
Qed.

End HandleFacts.

Module HandleProperties.
Import Py Posix Command CommandSpec Vocabulary PosixFacts CommandFacts MoreFacts
  HandleFacts Examples.

(** X4.  A run of [handle], whatever comes of it, takes away or changes
    no entry of the file system other than the target file: every other
    file and every directory that was there is there afterwards. *)
Theorem handle_keeps_other_entries
    (options : gmap string pyobj) (w : World) (k : path) (n : node) :
  k ≠ target_of w → fs w !! k = Some n →
  fs (after (handle options) w) !! k = Some n.
Proof.
  intros Hk Hl.
  destruct (handle_cases options w) as [| | | | | u content w4 _ _ _ _ Hsave
                                        | u content e w4 _ _ _ _ Hsave]; try done.
  - simpl. by eapply (save_keeps_others _ _ _ _ _ Hsave).
  - by eapply (save_keeps_others _ _ _ _ _ Hsave).
Qed.

Lemma handle_keeps_other_entries_witness :
  fs (after (handle no_options) example_world) !! app_dir = Some Dir.
Proof.
  apply (handle_keeps_other_entries no_options example_world app_dir Dir).
  - vm_compute. discriminate.
  - vm_compute. reflexivity.
Defined.

(** X5.  [handle] keeps the file system a tree: when every entry lies in
    a directory before the run, so does every entry after it, whether
    the run returns or raises. *)
Theorem handle_preserves_tree (options : gmap string pyobj) (w : World) :
  tree_shaped (fs w) → tree_shaped (fs (after (handle options) w)).
Proof.
  intros Htree. eapply handle_keeps_tree; [exact Htree|]. apply run_eq.
Qed.

Lemma handle_preserves_tree_witness :
  tree_shaped (fs (after (handle no_options) example_world)).
Proof.
  apply (handle_preserves_tree no_options example_world).
  unfold example_world, example_fs, app_dir. cbn [fs].
  repeat (apply tree_shaped_insert;
          [| vm_compute; reflexivity | vm_compute; discriminate]).
  intros c q [n Hn]. by rewrite lookup_empty in Hn.
Defined.

(** X6.  With [--dry-run] set, a run of [handle] never touches the file
    system, whatever the URL is and whatever the fetch comes to: no
    directory is made, nothing is written, and the file system is as it
    was. *)
Theorem handle_dry_run_never_writes (options : gmap string pyobj) (w : World) :
  truthy (dict_get options "dry_run") = true →
  fs (after (handle options) w) = fs w
  ∧ ∃ t, added w (after (handle options) w) t
         ∧ Forall (λ ev, is_write ev = false ∧ is_mkdir ev = false) t.
Proof.
  intros Hdry.
  destruct (handle_cases options w)
    as [| | | | | u content w4 _ _ _ Hno _ | u content e w4 _ _ _ Hno _];
    try congruence;
    (split; [done|]); eexists; (split; [apply added_logs|]); by repeat constructor.
Qed.

Lemma handle_dry_run_never_writes_witness :
  fs (after (handle (<["dry_run" := PyBool true]> (url_options gone_url))) example_world)
  = fs example_world.
Proof.
  apply (handle_dry_run_never_writes
           (<["dry_run" := PyBool true]> (url_options gone_url)) example_world).
  vm_compute. reflexivity.
Defined.

(** X7.  The success line is truthful: when a run of [handle] prints a
    line in the SUCCESS style, the run has returned, it has written the
    target file in that run, and the file holds what was written. *)
Theorem handle_success_line_truthful
    (options : gmap string pyobj) (w : World) (t : list event) :
  added w (after (handle options) w) t →
  (∃ ev, ev ∈ t ∧ is_success_line ev = true) →
  outcome (handle options) w = Ok ()
  ∧ ∃ b, EvWrite (target_of w) b ∈ t
         ∧ fs (after (handle options) w) !! target_of w = Some (File b).
Proof.
  intros Hadd (ev & Hin & Hev).
  assert (∀ t0, Forall (λ ev, is_success_line ev = false) t0 → ev ∉ t0) as Hnone.
  { intros t0 Hall Hin0. rewrite Forall_forall in Hall. specialize (Hall _ Hin0).
    congruence. }
  destruct (handle_cases options w) as [| | | | | u content w4 _ _ _ _ Hsave
                                        | u content e w4 _ _ _ _ Hsave].
  1-5: exfalso; rewrite (added_inj _ _ _ _ Hadd (added_logs _ _)) in Hin;
       revert Hin; apply Hnone; by repeat constructor.
  - split; [done|].
    apply save_frame in Hsave
      as (_ & dirs & Hdirs & [(e & ? & _) | (b & _ & _ & Hadd4 & Htp & _)]); [done|].
    exists b. split; [|done].
    assert (t = [line_fetching (PyStr u); EvGet u; line_fetched content]
                ++ (dirs ++ [EvWrite (target_of w) b]) ++ [line_saved (target_of w)])
      as ->.
    { eapply added_inj; [exact Hadd|]. unfold added in *. simpl in *.
      rewrite Hadd4. by rewrite <- !app_assoc. }
    rewrite !elem_of_app, list_elem_of_singleton. auto.
  - exfalso.
    apply save_frame in Hsave
      as (_ & dirs & Hdirs & [(e' & _ & Hadd4) | (b & ? & _)]); [|done].
    assert (t = [line_fetching (PyStr u); EvGet u; line_fetched content] ++ dirs) as ->.
    { eapply added_inj; [exact Hadd|]. unfold added in *. simpl in *.
      rewrite Hadd4. by rewrite <- !app_assoc. }
    revert Hin. apply Hnone. apply Forall_app. split; [by repeat constructor|].
    eapply Forall_impl; [exact Hdirs|]. by intros [].
Qed.

Lemma handle_success_line_truthful_witness :
  ∃ b, fs (after (handle no_options) installed_world) !! target_of installed_world
       = Some (File b)
       ∧ EvWrite (target_of installed_world) b
         ∈ trace (after (handle no_options) installed_world).
Proof.
  destruct (handle_success_line_truthful no_options installed_world
              (trace (after (handle no_options) installed_world)))
    as (_ & b & Hin & Hfile).
  - reflexivity.
  - exists (line_saved (target_of installed_world)). split; [|reflexivity].
    vm_compute. apply list_elem_of_In. do 4 right. left. reflexivity.
  - exists b. split; [exact Hfile | exact Hin].
Defined.

(** X8.  No [httpx.HTTPError] leaves [handle]: an exception that a run
    of [handle] raises is of another class (a [TypeError] for a URL that
    is no string, what the network raised outside the [HTTPError]
    classes, or the [OSError] or [UnicodeEncodeError] of the save). *)
Theorem handle_raises_no_http_error
    (options : gmap string pyobj) (w : World) (e : exn) :
  outcome (handle options) w = Raise e → is_HTTPError e = false.
Proof.
  intros Hraise.
  destruct (handle_cases options w)
    as [| | | u e' _ _ _ Hno | | | u content e' w4 _ _ _ _ Hsave]; try done.
  - by injection Hraise as <-.
  - by injection Hraise as <-.
  - injection Hraise as <-.
    destruct (save_raises _ _ _ _ _ Hsave) as [Hos | Hcls].
    + by apply oserror_not_http.
    + unfold is_HTTPError. by rewrite Hcls.
Qed.

Lemma handle_raises_no_http_error_witness :
  ∃ e, outcome (handle no_options) blocked_world = Raise e ∧ is_HTTPError e = false.
Proof.
  exists (os_error NotADirectoryError (parent (target_of blocked_world))).
  assert (outcome (handle no_options) blocked_world
          = Raise (os_error NotADirectoryError (parent (target_of blocked_world))))
    as Hraise by (vm_compute; reflexivity).
  split; [exact Hraise|].
  exact (handle_raises_no_http_error no_options blocked_world _ Hraise).
Defined.

(** X9.  Running the command again is safe, with the same options, the
    remote side unchanged and the operating system refusing no call: two
    runs of [handle] in a row leave the file system that one run leaves.
    That holds for the two runs made one after the other in one program,
    where a first run that raises ends it, and for a second run started
    anew in the world the first one left, whether the first returned or
    raised. *)
Theorem handle_twice (options : gmap string pyobj) (w : World) :
  fs (after (handle options;; handle options) w) = fs (after (handle options) w)
  ∧ fs (after (handle options) (after (handle options) w))
    = fs (after (handle options) w).
Proof.
  assert (fs (after (handle options) (after (handle options) w))
          = fs (after (handle options) w)) as Hanew.
  { destruct (handle_cases options w)
      as [Hno | Htrue Hstr | u e Hurl Hne Hfetch Hhttp | u e Hurl Hne Hfetch Hhttp
          | u content Hurl Hne Hfetch Hdry
          | u content w4 Hurl Hne Hfetch Hdry Hsave
          | u content e w4 Hurl Hne Hfetch Hdry Hsave].
    - unfold after at 1. by rewrite handle_no_url.
    - unfold after at 1. by rewrite handle_bad_url.
    - unfold after at 1. rewrite (handle_fetch_raises options _ u e); try done.
      + by rewrite Hhttp.
      + by rewrite fetch_outcome_logs.
    - unfold after at 1. rewrite (handle_fetch_raises options _ u e); try done.
      + by rewrite Hhttp.
      + by rewrite fetch_outcome_logs.
    - unfold after at 1. rewrite (handle_dry options _ u content); try done.
      by rewrite fetch_outcome_logs.
    - by apply (handle_after_save options w
                  (logs [line_fetching (PyStr u); EvGet u; line_fetched content] w)
                  w4 (logs [line_saved (target_of w)] w4) u content (Ok ())).
    - by apply (handle_after_save options w
                  (logs [line_fetching (PyStr u); EvGet u; line_fetched content] w)
                  w4 w4 u content (Raise e)). }
  split; [|exact Hanew].
  unfold after at 1. unfold_M. rewrite (run_eq (handle options) w).
  by destruct (outcome (handle options) w) as [[]|e].
Qed.

Lemma handle_twice_witness :
  (∃ e, outcome (handle no_options) blocked_world = Raise e)
  ∧ fs (after (handle no_options) (after (handle no_options) blocked_world))
    = fs (after (handle no_options) blocked_world)
  ∧ fs (after (handle no_options) (after (handle no_options) example_world))
    = fs (after (handle no_options) example_world).
Proof.
  split; [eexists; vm_compute; reflexivity|].
  split.
  - apply (handle_twice no_options blocked_world).
  - apply (handle_twice no_options example_world).
Defined.

(** X10.  A setting that is not a string is not ignored the way a
    [--url] option is: with no usable [--url] and a true value that is no
    string in [PATTERN_HEADER_URL], [handle] announces the fetch, and the
    [TypeError] of httpx goes through it, before any request is made and
    with the file system untouched. *)
Theorem handle_non_string_setting
    (options : gmap string pyobj) (w : World) (v : pyobj) :
  (∀ s, options !! "url" = Some (PyStr s) → s = []) →
  settings w !! "PATTERN_HEADER_URL" = Some v →
  isinstance_str v = false → truthy v = true →
  handle options w
  = (Raise (Exn TypeError (lit "Invalid type for url")), logs [line_fetching v] w).
Proof.
  intros Hopt Hset Hstr Htrue.
  assert (handle_url options (settings w) = v) as Hurl.
  { unfold handle_url, dict_get, getattr. rewrite Hset. simpl.
    destruct (options !! "url") as [[| | |s]|] eqn:Hl; try done.
    by rewrite (Hopt s eq_refl). }
  rewrite handle_bad_url; by rewrite Hurl.
Qed.

Lemma handle_non_string_setting_witness :
  handle no_options misconfigured_world
  = (Raise (Exn TypeError (lit "Invalid type for url")),
     logs [line_fetching (PyInt 5)] misconfigured_world).
Proof.
  apply (handle_non_string_setting no_options misconfigured_world (PyInt 5)).
  - intros s. vm_compute. discriminate.
  - vm_compute. reflexivity.
  - reflexivity.
  - reflexivity.
Defined.

(** X11.  [fetch_pattern_header] calls [httpx.get] once, with the URL it
    is given, whether it then returns or raises, and does nothing else:
    it prints nothing and leaves the file system alone.  What
    [httpx.get] raises goes through it unchanged, and the only exception
    that does not come from that call is the [HTTPStatusError] for a
    response without a success status. *)
Theorem fetch_one_request (u : pystr) (w : World) :
  after (fetch_pattern_header (PyStr u)) w = logs [EvGet u] w
  ∧ (∀ e, net w u = Failed e →
       outcome (fetch_pattern_header (PyStr u)) w = Raise e)
  ∧ (∀ e, outcome (fetch_pattern_header (PyStr u)) w = Raise e →
       net w u = Failed e
       ∨ ∃ r, net w u = Responded r ∧ Httpx.is_success r = false
              ∧ exn_class e = HTTPStatusError).
Proof.
  split; [apply fetch_after|]. unfold outcome.
  destruct (net w u) as [r|e0] eqn:Hnet.
  - rewrite (fetch_responded _ _ _ Hnet). split; [done|].
    intros e. destruct (Httpx.is_success r) eqn:Hok; [done|].
    intros [= <-]. right. by exists r.
  - rewrite (fetch_failed _ _ _ Hnet). split; [by intros e [= <-]|].
    intros e [= <-]. by left.
Qed.

Lemma fetch_one_request_witness :
  outcome (fetch_pattern_header (PyStr bad_url)) example_world = Raise invalid_port.
Proof.
  destruct (fetch_one_request bad_url example_world) as (_ & Hthrough & _).
  apply Hthrough. vm_compute. reflexivity.
Defined.

(** X17.  A run of [handle] hands a URL string to [httpx.get] exactly
    when the URL it works with is a non-empty string, and then once:
    with no URL, or with a value that is no string, no GET is asked of
    httpx, so that no request can be made. *)
Theorem handle_get_iff_url (options : gmap string pyobj) (w : World) (t : list event) :
  added w (after (handle options) w) t →
  (count is_get t = 1%nat ↔ ∃ u, handle_url options (settings w) = PyStr u ∧ u ≠ [])
  ∧ (count is_get t ≠ 1%nat → count is_get t = 0%nat).
Proof.
  intros Hadd.
  destruct (handle_cases options w)
    as [Hno | Htrue Hstr | u e Hurl Hne _ _ | u e Hurl Hne _ _ | u content Hurl Hne _ _
        | u content w4 Hurl Hne _ _ Hsave | u content e w4 Hurl Hne _ _ Hsave].
  - rewrite (added_inj _ _ _ _ Hadd (added_logs _ _)). split; [|done].
    split; [done|]. intros (u & Hurl & Hne). rewrite Hurl in Hno. by destruct u.
  - rewrite (added_inj _ _ _ _ Hadd (added_logs _ _)). split; [|done].
    split; [done|]. intros (u & Hurl & Hne). by rewrite Hurl in Hstr.
  - rewrite (added_inj _ _ _ _ Hadd (added_logs _ _)). split; [|done]. split; eauto.
  - rewrite (added_inj _ _ _ _ Hadd (added_logs _ _)). split; [|done]. split; eauto.
  - rewrite (added_inj _ _ _ _ Hadd (added_logs _ _)). split; [|done]. split; eauto.
  - apply save_frame in Hsave
      as (_ & dirs & Hdirs & [(e & ? & _) | (b & _ & _ & Hadd4 & _)]); [done|].
    assert (t = [line_fetching (PyStr u); EvGet u; line_fetched content]
                ++ (dirs ++ [EvWrite (target_of w) b]) ++ [line_saved (target_of w)])
      as ->.
    { eapply added_inj; [exact Hadd|]. unfold added in *. simpl in *.
      rewrite Hadd4. by rewrite <- !app_assoc. }
    rewrite !count_app, (count_mkdirs is_get dirs ltac:(done) Hdirs).
    split; [|done]. split; eauto.
  - apply save_frame in Hsave
      as (_ & dirs & Hdirs & [(e' & _ & Hadd4) | (b & ? & _)]); [|done].
    assert (t = [line_fetching (PyStr u); EvGet u; line_fetched content] ++ dirs) as ->.
    { eapply added_inj; [exact Hadd|]. unfold added in *. simpl in *.
      rewrite Hadd4. by rewrite <- !app_assoc. }
    rewrite !count_app, (count_mkdirs is_get dirs ltac:(done) Hdirs).
    split; [|done]. split; eauto.
Qed.

Lemma handle_get_iff_url_witness :
  count is_get (trace (after (handle no_options) misconfigured_world)) = 0%nat
  ∧ count is_get (trace (after (handle (url_options gone_url)) example_world)) = 1%nat.
Proof.
  split.
  - destruct (handle_get_iff_url no_options misconfigured_world
                (trace (after (handle no_options) misconfigured_world)))
      as (Hiff & Hnone); [reflexivity|].
    apply Hnone. intros Hone. apply Hiff in Hone as (u & Hurl & _).
    vm_compute in Hurl. discriminate Hurl.
  - destruct (handle_get_iff_url (url_options gone_url) example_world
                (trace (after (handle (url_options gone_url)) example_world)))
      as (Hiff & _); [reflexivity|].
    apply Hiff. exists gone_url. split; [vm_compute; reflexivity | vm_compute; discriminate].
Defined.

End HandleProperties.

(* ===================================================================== *)
(** * Further properties of manage.py, admin.py and the test case *)
(* ===================================================================== *)

Module ScriptProperties.
Import Manage Script.
Local Open Scope string_scope.

(** X12.  What [main] itself does to the environment, up to the point
    where it hands over to Django: [DJANGO_SETTINGS_MODULE] is set from
    then on, also when the import of Django fails and [ImportError] is
    raised; no other variable is touched; and in an environment that was
    prepared so once, preparing it again changes nothing.  What Django
    does to the environment once it runs is outside this statement. *)
Theorem main_environment {R : Type}
    (django : option (list string → gmap string string → R))
    (argv : list string) (environ : gmap string string) :
  is_Some (fst (main django argv environ) !! "DJANGO_SETTINGS_MODULE")
  ∧ (∀ name, name ≠ "DJANGO_SETTINGS_MODULE" →
       fst (main django argv environ) !! name = environ !! name)
  ∧ fst (main django argv (fst (main django argv environ)))
    = fst (main django argv environ)
  ∧ (django = None → ∃ msg, snd (main django argv environ) = ImportError msg).
Proof.
  assert (∀ env : gmap string string,
            fst (main django argv env)
            = environ_setdefault "DJANGO_SETTINGS_MODULE" "config.settings" env) as Hfst.
  { intros env. unfold main. by destruct django. }
  rewrite !Hfst. unfold environ_setdefault.
  split; [|split; [|split]].
  - destruct (environ !! "DJANGO_SETTINGS_MODULE") as [v|] eqn:Hv.
    + by rewrite Hv.
    + by rewrite lookup_insert_eq.
  - intros name Hname.
    destruct (environ !! "DJANGO_SETTINGS_MODULE"); [done|].
    by rewrite lookup_insert_ne.
  - destruct (environ !! "DJANGO_SETTINGS_MODULE") as [v|] eqn:Hv.
    + by rewrite Hv.
    + by rewrite lookup_insert_eq.
  - intros ->. unfold main. eauto.
Qed.

Lemma main_environment_witness :
  fst (main (R := unit) None ["manage.py"; "check"] {[ "HOME" := "/root" ]})
    !! "DJANGO_SETTINGS_MODULE" = Some "config.settings"
  ∧ fst (main (R := unit) None ["manage.py"; "check"] {[ "HOME" := "/root" ]})
      !! "HOME" = Some "/root".
Proof.
  destruct (main_environment (R := unit) None ["manage.py"; "check"]
              {[ "HOME" := "/root" ]}) as (_ & Hother & _).
  split; [vm_compute; reflexivity|].
  rewrite Hother; [vm_compute; reflexivity | discriminate].
Defined.

(** X13.  Run as a script, manage.py prints its two version lines
    unless [RUN_MAIN] is ['true'], and then does what [main] does.  When
    the [django] package itself cannot be imported, the script stops at
    its top-level import: nothing is printed, the environment is left as
    it was, and the [ImportError] that [main] words is not what is
    raised; that one needs a [django] package whose management module
    does not import. *)
Theorem script_run {R : Type} (django : option (django_package R))
    (version_info : N * N * N) (argv : list string) (environ : gmap string string) :
  (∀ pkg, django = Some pkg →
     run django version_info argv environ
     = (fst (main (management pkg) argv environ),
        (if bool_decide (environ !! "RUN_MAIN" = Some "true")
         then [] else version_lines version_info pkg),
        Ended (snd (main (management pkg) argv environ))))
  ∧ (django = None →
       run django version_info argv environ = (environ, [], ModuleNotFoundError))
  ∧ (∀ msg, snd (run django version_info argv environ) = Ended (ImportError msg) →
       ∃ pkg, django = Some pkg ∧ management pkg = None).
Proof.
  split; [|split].
  - intros pkg ->. unfold run.
    destruct (main (management pkg) argv environ) as [env' o]. simpl.
    by repeat case_bool_decide.
  - by intros ->.
  - intros msg. unfold run. destruct django as [pkg|]; [|done].
    destruct (main (management pkg) argv environ) as [env' o] eqn:Hmain. simpl.
    intros [= ->]. exists pkg. split; [done|].
    unfold main in Hmain. by destruct (management pkg).
Qed.

Lemma script_run_witness :
  run (Some (mkDjango "5.2" (Some (λ argv _, argv)))) (3, 12, 4)
      ["manage.py"; "runserver"] {[ "RUN_MAIN" := "true" ]}
  = (<["DJANGO_SETTINGS_MODULE" := "config.settings"]> {[ "RUN_MAIN" := "true" ]},
     [], Ended (Executed ["manage.py"; "runserver"]))
  ∧ snd (fst (run (Some (mkDjango "5.2" (Some (λ argv _, argv)))) (3, 12, 4)
                  ["manage.py"; "runserver"] ∅))
    = [ "using python version, ``3.12.4``"; "using django version, ``5.2``" ].
Proof.
  split.
  - destruct (script_run (Some (mkDjango "5.2" (Some (λ argv _, argv)))) (3, 12, 4)
                ["manage.py"; "runserver"] {[ "RUN_MAIN" := "true" ]}) as (Hrun & _).
    rewrite (Hrun _ eq_refl). reflexivity.
  - destruct (script_run (Some (mkDjango "5.2" (Some (λ argv _, argv)))) (3, 12, 4)
                ["manage.py"; "runserver"] ∅) as (Hrun & _).
    rewrite (Hrun _ eq_refl). vm_compute. reflexivity.
Defined.

End ScriptProperties.

Module AdminChecks.
Import Admin Vocabulary AdminProperties.
Local Open Scope string_scope.

Lemma admin_py_empty :
  admin_py ∅
  = Some (<["OpenRouterSummary" := OpenRouterSummaryAdmin]>
            (<["VeraPDFResult" := VeraPDFResultAdmin]>
               (<["PDFDocument" := PDFDocumentAdmin]> ∅))).
Proof.
  rewrite admin_py_eq. rewrite bool_decide_eq_true_2; [done|].
  by rewrite !lookup_empty.
Qed.

(** X14.  [admin.py] cannot be imported into the same site twice: in the
    site a first import leaves, a second one stops at its first decorator
    ([AlreadyRegistered]); and the first import makes the site larger by
    three models. *)
Theorem admin_py_once (site site' : registry) :
  admin_py site = Some site' →
  admin_py site' = None ∧ size site' = (size site + 3)%nat.
Proof.
  rewrite admin_py_eq. case_bool_decide as Hfree; [|done].
  destruct Hfree as (H1 & H2 & H3). intros [= <-]. split.
  - rewrite admin_py_eq. rewrite bool_decide_eq_false_2; [done|].
    intros (Hfirst & _). by simplify_map_eq.
  - rewrite !map_size_insert_None; [lia|by simplify_map_eq..].
Qed.

Lemma admin_py_once_witness :
  ∃ site', admin_py ∅ = Some site' ∧ admin_py site' = None ∧ size site' = 3%nat.
Proof.
  eexists. split; [apply admin_py_empty|].
  destruct (admin_py_once ∅ _ admin_py_empty) as (Hagain & Hsize).
  split; [exact Hagain|]. rewrite Hsize. reflexivity.
Defined.

(** X15.  Every admin class that [admin.py] registers is consistent in
    itself: no field is named twice in its [fieldsets] (the condition of
    Django's check [admin.E012]), and every column of [list_display],
    every filter of [list_filter] and every field of [readonly_fields] is
    a field its [fieldsets] show. *)
Theorem admin_classes_consistent
    (site site' : registry) (model : string) (cls : ModelAdmin) :
  admin_py site = Some site' →
  site !! model = None → site' !! model = Some cls →
  NoDup (fieldset_fields cls)
  ∧ list_display cls ⊆ fieldset_fields cls
  ∧ list_filter cls ⊆ fieldset_fields cls
  ∧ readonly_fields cls ⊆ fieldset_fields cls.
Proof.
  rewrite admin_py_eq. case_bool_decide as Hfree; [|done]. intros [= <-] Hold Hnew.
  assert (cls = PDFDocumentAdmin ∨ cls = VeraPDFResultAdmin
          ∨ cls = OpenRouterSummaryAdmin) as Hcls.
  { destruct (decide (model = "OpenRouterSummary")) as [->|?];
      [rewrite lookup_insert_eq in Hnew; injection Hnew; auto|].
    rewrite lookup_insert_ne in Hnew by done.
    destruct (decide (model = "VeraPDFResult")) as [->|?];
      [rewrite lookup_insert_eq in Hnew; injection Hnew; auto|].
    rewrite lookup_insert_ne in Hnew by done.
    destruct (decide (model = "PDFDocument")) as [->|?];
      [rewrite lookup_insert_eq in Hnew; injection Hnew; auto|].
    rewrite lookup_insert_ne in Hnew by done. congruence. }
  destruct Hcls as [-> | [-> | ->]];
    (split; [|split; [|split]]);
    apply (bool_decide_unpack _); vm_compute; reflexivity.
Qed.

Lemma admin_classes_consistent_witness :
  NoDup (fieldset_fields OpenRouterSummaryAdmin)
  ∧ list_display OpenRouterSummaryAdmin ⊆ fieldset_fields OpenRouterSummaryAdmin
  ∧ list_filter OpenRouterSummaryAdmin ⊆ fieldset_fields OpenRouterSummaryAdmin
  ∧ readonly_fields OpenRouterSummaryAdmin ⊆ fieldset_fields OpenRouterSummaryAdmin.
Proof.
  apply (admin_classes_consistent ∅ _ "OpenRouterSummary" OpenRouterSummaryAdmin
           admin_py_empty).
  - apply lookup_empty.
  - apply lookup_insert_eq.
Defined.

End AdminChecks.

Module TestCaseProperties.
Import Report Examples.
Local Open Scope string_scope.

(** X16.  Against a report view that behaves as modelled (200 and the
    file name for the key of a document, 404 otherwise), the test methods
    for the valid and for the malformed UUID pass for every UUID [setUp]
    can draw, and the test method for the unknown UUID passes exactly
    when the UUID it draws differs from the one [setUp] drew. *)
Theorem test_case_outcome
    (render : PDFDocument → string) (test_uuid invalid_uuid : string) :
  (∀ document, contains (original_filename document) (render document)) →
  is_uuid test_uuid = true → is_uuid invalid_uuid = true →
  test_pdf_report_url_with_valid_uuid render test_uuid
  ∧ test_pdf_report_url_with_malformed_uuid render test_uuid
  ∧ (test_pdf_report_url_with_invalid_uuid render test_uuid invalid_uuid
     ↔ invalid_uuid ≠ test_uuid).
Proof.
  intros Hrender Htest Hinvalid.
  unfold test_pdf_report_url_with_valid_uuid, test_pdf_report_url_with_invalid_uuid,
    test_pdf_report_url_with_malformed_uuid, pdf_report_url, pdf_report,
    setUp, objects_create.
  cbn [id setUp_document]. rewrite Htest, Hinvalid.
  rewrite lookup_insert_eq. split; [|split; [done|]].
  - split; [done|]. apply (Hrender (setUp_document test_uuid)).
  - destruct (decide (invalid_uuid = test_uuid)) as [->|Hnew].
    + rewrite lookup_insert_eq. simpl. split; [done|]. by intros [].
    + rewrite lookup_insert_ne by done. rewrite lookup_empty. done.
Qed.

Lemma test_case_outcome_witness :
  test_pdf_report_url_with_valid_uuid heading_page "123e4567-e89b-42d3-a456-426614174000"
  ∧ test_pdf_report_url_with_invalid_uuid heading_page
      "123e4567-e89b-42d3-a456-426614174000" "00000000-0000-4000-8000-000000000000"
  ∧ ¬ test_pdf_report_url_with_invalid_uuid heading_page
        "123e4567-e89b-42d3-a456-426614174000" "123e4567-e89b-42d3-a456-426614174000".
Proof.
  assert (∀ document, contains (original_filename document) (heading_page document))
    as Hrender.
  { intros document. exists "<h1>", "</h1>". reflexivity. }
  destruct (test_case_outcome heading_page "123e4567-e89b-42d3-a456-426614174000"
              "00000000-0000-4000-8000-000000000000" Hrender eq_refl eq_refl)
    as (Hvalid & _ & Hfresh).
  destruct (test_case_outcome heading_page "123e4567-e89b-42d3-a456-426614174000"
              "123e4567-e89b-42d3-a456-426614174000" Hrender eq_refl eq_refl)
    as (_ & _ & Hsame).
  split; [exact Hvalid|]. split.
  - apply Hfresh. discriminate.
  - intros Hpass. by apply Hsame in Hpass.
Defined.

End TestCaseProperties.
